(** * otx/nats: trace propagation and span lifecycle around NATS JetStream

    A shallow embedding of the [nats] package of the otx repository
    (attributes.go, the options file, the header carrier, the traced
    message and its iterators, publisher.go, the consumer wrapper and the
    callback handler wrapper) and of the helpers of span.go that a
    callback uses on the span of its context, with the properties of its
    specification stated and settled against it.

    Go values are modelled as follows.  A nil-able pointer, interface,
    map or function is an [option]; a function returning [(value, error)]
    returns a pair of options; a function that may panic returns a
    [result]; code that starts spans, injects headers or calls the
    JetStream client threads a [World] through a small state monad. *)

From stdpp Require Import base option list gmap strings.
From Stdlib Require Import NArith ZArith Lia Ascii String DecimalString.

Local Open Scope string_scope.
Local Open Scope Z_scope.

(** ** Go-level notions *)

Module Go.

(** A Go [error] value: its identity and the text of [Error()]. *)
Record error := Err { err_id : N; err_text : string }.

Definition Error (e : error) : string := err_text e.

(** The value carried by a panic, with its [%v] rendering. *)
Inductive PanicValue :=
| PanicString (s : string)
| PanicError (e : error)
| PanicInt (z : Z).

Definition format_v (v : PanicValue) : string :=
  match v with
  | PanicString s => s
  | PanicError e => Error e
  | PanicInt z => NilZero.string_of_int (Z.to_int z)
  end.

(** Outcome of running a Go function: normal return or panic. *)
Inductive result (A : Type) :=
| Ret (a : A)
| Panic (v : PanicValue).
Arguments Ret {A} a.
Arguments Panic {A} v.

Definition returns {A} (r : result A) : bool :=
  match r with Ret _ => true | Panic _ => false end.

(** [[]byte] and [len]. *)
Definition bytes := list Byte.byte.
Definition len (b : bytes) : Z := Z.of_nat (List.length b).

(** The built-in [append(s, xs...)]. *)
Definition append {A} (s xs : list A) : list A := (s ++ xs)%list.

(** [strconv.FormatUint(n, 10)]. *)
Definition FormatUint (n : N) : string := NilZero.string_of_uint (N.to_uint n).

End Go.
Export Go.

(** ** attributes.go *)

Module Attribute.

(** [attribute.Value], restricted to the two constructors the package uses. *)
Inductive Value :=
| StringValue (s : string)
| IntValue (i : Z).

Record KeyValue := KV { Key : string; Val : Value }.

(** [attribute.String] and [attribute.Int]. *)
Definition String_ (k v : string) : KeyValue := KV k (StringValue v).
Definition Int (k : string) (v : Z) : KeyValue := KV k (IntValue v).

Definition value_eqb (a b : Value) : bool :=
  match a, b with
  | StringValue s, StringValue t => String.eqb s t
  | IntValue i, IntValue j => Z.eqb i j
  | _, _ => false
  end.

(** First value bound to [k] in an attribute list, if any. *)
Fixpoint lookup (k : string) (attrs : list KeyValue) : option Value :=
  match attrs with
  | [] => None
  | kv :: rest => if String.eqb (Key kv) k then Some (Val kv) else lookup k rest
  end.

(** [k] occurs as a key of [attrs]. *)
Definition has_key (k : string) (attrs : list KeyValue) : bool :=
  existsb (fun kv => String.eqb (Key kv) k) attrs.

End Attribute.

Abbreviation KeyValue := Attribute.KeyValue.

Definition messagingSystem := "nats".

Definition attrMessagingSystem := "messaging.system".
Definition attrMessagingOperationName := "messaging.operation.name".
Definition attrMessagingOperationType := "messaging.operation.type".
Definition attrMessagingDestinationName := "messaging.destination.name".
Definition attrMessagingConsumerGroup := "messaging.consumer.group.name".
Definition attrMessagingMessageID := "messaging.message.id".
Definition attrMessagingMessageBodySize := "messaging.message.body.size".
Definition attrNATSStream := "nats.stream".

Definition opTypePublish := "publish".
Definition opTypeReceive := "receive".
Definition opTypeProcess := "process".
Definition opTypeSend := "send".

(** [publishAttributes]: attributes of a publish span. *)
Definition publishAttributes (subject msgID : string) (bodySize : Z) : list KeyValue :=
  let attrs :=
    [ Attribute.String_ attrMessagingSystem messagingSystem;
      Attribute.String_ attrMessagingOperationName opTypePublish;
      Attribute.String_ attrMessagingOperationType opTypeSend;
      Attribute.String_ attrMessagingDestinationName subject ] in
  let attrs :=
    if negb (String.eqb msgID "")
    then append attrs [Attribute.String_ attrMessagingMessageID msgID] else attrs in
  let attrs :=
    if 0 <? bodySize
    then append attrs [Attribute.Int attrMessagingMessageBodySize bodySize] else attrs in
  attrs.

(** [receiveAttributes]: attributes of a receive/fetch span. *)
Definition receiveAttributes (stream consumerName : string) (bodySize : Z) : list KeyValue :=
  let attrs :=
    [ Attribute.String_ attrMessagingSystem messagingSystem;
      Attribute.String_ attrMessagingOperationName opTypeReceive;
      Attribute.String_ attrMessagingOperationType opTypeReceive;
      Attribute.String_ attrNATSStream stream ] in
  let attrs :=
    if negb (String.eqb consumerName "")
    then append attrs [Attribute.String_ attrMessagingConsumerGroup consumerName] else attrs in
  let attrs :=
    if 0 <? bodySize
    then append attrs [Attribute.Int attrMessagingMessageBodySize bodySize] else attrs in
  attrs.

(** [processAttributes]: attributes of a message processing span. *)
Definition processAttributes (stream consumerName subject msgID : string) (bodySize : Z)
  : list KeyValue :=
  let attrs :=
    [ Attribute.String_ attrMessagingSystem messagingSystem;
      Attribute.String_ attrMessagingOperationName opTypeProcess;
      Attribute.String_ attrMessagingOperationType opTypeProcess;
      Attribute.String_ attrNATSStream stream ] in
  let attrs :=
    if negb (String.eqb subject "")
    then append attrs [Attribute.String_ attrMessagingDestinationName subject] else attrs in
  let attrs :=
    if negb (String.eqb consumerName "")
    then append attrs [Attribute.String_ attrMessagingConsumerGroup consumerName] else attrs in
  let attrs :=
    if negb (String.eqb msgID "")
    then append attrs [Attribute.String_ attrMessagingMessageID msgID] else attrs in
  let attrs :=
    if 0 <? bodySize
    then append attrs [Attribute.Int attrMessagingMessageBodySize bodySize] else attrs in
  attrs.

(** ** nats.Header and the two message types

    These belong to the NATS client library; only the operations the
    package calls are modelled. *)

Module Nats.

(** [nats.Header] is [map[string][]string]; keys are case-sensitive. *)
Abbreviation Header := (gmap string (list string)).

(** [Header.Set]: [h[key] = []string{value}]. *)
Definition Header_Set (h : Header) (key value : string) : Header :=
  <[key := [value]]> h.

(** [Header.Values]: [h[key]] (nil when absent). *)
Definition Header_Values (h : Header) (key : string) : list string :=
  default [] (h !! key).

(** [nats.Msg], the outbound message; [msg_Header = None] is a nil map. *)
Record Msg := mkMsg {
  msg_Subject : string;
  msg_Data : bytes;
  msg_Header : option Header
}.

(** [jetstream.MsgMetadata], the two fields the package reads. *)
Record MsgMetadata := mkMetadata { Stream : string; Consumer : string }.

(** A value of the interface [jetstream.Msg], given by what its methods
    return. *)
Record JMsg := mkJMsg {
  Subject : string;
  Data : bytes;
  Headers : option Header;
  Metadata : option MsgMetadata * option error
}.

(** [jetstream.PubAck]. *)
Record PubAck := mkPubAck { ack_Stream : string; Sequence : N }.

(** [jetstream.PubAckFuture], opaque to the package. *)
Record PubAckFuture := mkFuture { future_id : N }.

(** [jetstream.ConsumerInfo], the field the package reads. *)
Record ConsumerInfo := mkConsumerInfo { Name : string }.

End Nats.

(** ** The trace API, at the interface the package uses *)

Module Trace.

(** [trace.SpanContext]: a 16-byte trace id, an 8-byte span id, one byte of
    flags, the trace state and the remote mark. *)
Record SpanContext := mkSpanContext {
  TraceID : N;
  SpanID : N;
  TraceFlags : N;
  TraceState : string;
  Remote : bool
}.

Definition emptySpanContext : SpanContext := mkSpanContext 0 0 0 "" false.

(** [SpanContext.IsValid]: both identifiers are non-zero. *)
Definition IsValid (sc : SpanContext) : bool :=
  negb (TraceID sc =? 0)%N && negb (SpanID sc =? 0)%N.

(** The identifiers fit their byte arrays. *)
Definition fits (sc : SpanContext) : bool :=
  (TraceID sc <? 2 ^ 128)%N && (SpanID sc <? 2 ^ 64)%N.

(** [context.Context]: the request-scoped values this layer never touches
    and the span context that [trace.SpanContextFromContext] finds. *)
Record Context := mkContext {
  ctx_values : list (string * string);
  ctx_spanContext : SpanContext
}.

(** [context.Background()]. *)
Definition Background : Context := mkContext [] emptySpanContext.

Definition SpanContextFromContext (ctx : Context) : SpanContext := ctx_spanContext ctx.

(** [trace.ContextWithSpanContext] / [trace.ContextWithSpan]. *)
Definition ContextWithSpanContext (ctx : Context) (sc : SpanContext) : Context :=
  mkContext (ctx_values ctx) sc.

(** [trace.ContextWithRemoteSpanContext]. *)
Definition ContextWithRemoteSpanContext (ctx : Context) (sc : SpanContext) : Context :=
  ContextWithSpanContext ctx
    (mkSpanContext (TraceID sc) (SpanID sc) (TraceFlags sc) (TraceState sc) true).

Inductive SpanKind :=
| SpanKindInternal
| SpanKindServer
| SpanKindClient
| SpanKindProducer
| SpanKindConsumer.

(** [codes.Code]. *)
Inductive Code := Unset | Error | Ok.

Record TracerProvider := mkTracerProvider { tp_id : N }.

(** A tracer: the provider it came from and its instrumentation scope. *)
Record Tracer := mkTracer { tracer_provider : TracerProvider; tracer_scope : string }.

(** [TracerProvider.Tracer(name)]. *)
Definition tp_Tracer (tp : TracerProvider) (name : string) : Tracer := mkTracer tp name.

(** An event of a span; [RecordError] adds one named [exception]. *)
Record Event := mkEvent { ev_name : string; ev_message : string }.

(** What a recording provider keeps of one span. *)
Record SpanData := mkSpanData {
  sd_tracer : Tracer;
  sd_name : string;
  sd_kind : SpanKind;
  sd_parent : SpanContext;
  sd_spanContext : SpanContext;
  sd_attributes : list KeyValue;
  sd_status : Code * string;
  sd_events : list Event;
  sd_ended : nat
}.

(** A [trace.Span] handle: the position of its record. *)
Definition Span := nat.

End Trace.
Export Trace.

(** ** Propagators (go.opentelemetry.io/otel/propagation)

    A [TextMapPropagator] reaches a carrier only through [Set] (when it
    injects) and [Get] (when it extracts): it is given by the pairs it
    writes for a context, in order, and by the context it builds from a
    [Get] function. *)

Module Propagation.

Record TextMapPropagator := mkPropagator {
  Inject : Context -> list (string * string);
  Extract : Context -> (string -> string) -> Context
}.

(** [prop.Inject(ctx, carrier)] on a carrier with the given [Set]. *)
Definition inject_into {C} (P : TextMapPropagator) (ctx : Context)
    (set : C -> string -> string -> C) (carrier : C) : C :=
  fold_left (fun c kv => set c (fst kv) (snd kv)) (Inject P ctx) carrier.

(** Last value written for [k] by a sequence of [Set] calls. *)
Fixpoint last_write (k : string) (writes : list (string * string)) : option string :=
  match writes with
  | [] => None
  | (k', v) :: rest =>
      match last_write k rest with
      | Some v' => Some v'
      | None => if String.eqb k' k then Some v else None
      end
  end.

(** Lower-case hexadecimal, as [encoding/hex] writes and reads it: the
    digit of a value below sixteen, and the value of a digit, by character
    code. *)
Definition hex_digit (n : N) : ascii :=
  ascii_of_N (if (n <? 10)%N then 48 + n else 87 + n)%N.

Definition hex_value (c : ascii) : option N :=
  let code := N_of_ascii c in
  if ((48 <=? code) && (code <=? 57))%N then Some (code - 48)%N
  else if ((97 <=? code) && (code <=? 102))%N then Some (code - 87)%N
  else None.

(** The [k] low hexadecimal digits of [x], most significant first. *)
Fixpoint hex_encode (k : nat) (x : N) : string :=
  match k with
  | O => ""
  | S k' => String (hex_digit ((x / 16 ^ N.of_nat k') mod 16)%N) (hex_encode k' x)
  end.

Fixpoint hex_decode_from (acc : N) (s : string) : option N :=
  match s with
  | EmptyString => Some acc
  | String c s' =>
      match hex_value c with
      | Some d => hex_decode_from (acc * 16 + d)%N s'
      | None => None
      end
  end.

Definition hex_decode (s : string) : option N := hex_decode_from 0%N s.

(** [strings.Cut(s, "-")], without the found flag. *)
Fixpoint cut_dash (s : string) : string * string :=
  match s with
  | EmptyString => ("", "")
  | String c s' =>
      if Ascii.eqb c "-"%char then ("", s')
      else let (part, rest) := cut_dash s' in (String c part, rest)
  end.

(** [extractPart]: the next dash-separated part, which must be [n]
    lower-case hexadecimal digits; returns its value and what is left. *)
Definition extractPart (h : string) (n : nat) : option (N * string) :=
  let (part, rest) := cut_dash h in
  if negb (Nat.eqb (String.length part) n) then None
  else match hex_decode part with
       | Some v => Some (v, rest)
       | None => None
       end.

Definition traceparentHeader := "traceparent".
Definition tracestateHeader := "tracestate".
Definition maxVersion : N := 254.
Definition FlagsSampled : N := 1.

(** The [traceparent] value of a span context:
    [00-<trace id>-<span id>-<flags>], all flags but the sampling bit
    cleared. *)
Definition traceparent_of (sc : SpanContext) : string :=
  let flags := N.land (TraceFlags sc) FlagsSampled in
  "00" ++ "-" ++ hex_encode 32 (TraceID sc) ++
  "-" ++ hex_encode 16 (SpanID sc) ++
  "-" ++ hex_encode 2 flags.

(** [TraceContext.Inject]: nothing for an invalid span context, otherwise
    the trace state when non-empty and then the [traceparent] value. *)
Definition TraceContext_Inject (ctx : Context) : list (string * string) :=
  let sc := SpanContextFromContext ctx in
  if negb (IsValid sc) then []
  else
    let ts := if String.eqb (TraceState sc) "" then []
              else [(tracestateHeader, TraceState sc)] in
    append ts [(traceparentHeader, traceparent_of sc)].

(** [TraceContext.extract]. *)
Definition TraceContext_extract (get : string -> string) : SpanContext :=
  let h := get traceparentHeader in
  if String.eqb h "" then emptySpanContext
  else
    match extractPart h 2 with
    | None => emptySpanContext
    | Some (version, h) =>
    if (maxVersion <? version)%N then emptySpanContext
    else
    match extractPart h 32 with
    | None => emptySpanContext
    | Some (tid, h) =>
    match extractPart h 16 with
    | None => emptySpanContext
    | Some (sid, h) =>
    match extractPart h 2 with
    | None => emptySpanContext
    | Some (opts, h) =>
    if (version =? 0)%N && (negb (String.eqb h "") || (2 <? opts)%N)
    then emptySpanContext
    else
      let sc := mkSpanContext tid sid (N.land opts FlagsSampled)
                  (get tracestateHeader) true in
      if IsValid sc then sc else emptySpanContext
    end end end end.

(** [TraceContext.Extract]. *)
Definition TraceContext_Extract (ctx : Context) (get : string -> string) : Context :=
  let sc := TraceContext_extract get in
  if negb (IsValid sc) then ctx
  else ContextWithRemoteSpanContext ctx sc.

(** [propagation.TraceContext{}], the W3C propagator. *)
Definition TraceContext : TextMapPropagator :=
  mkPropagator TraceContext_Inject TraceContext_Extract.

(** [propagation.NewCompositeTextMapPropagator(ps...)]: the propagators
    inject one after the other, and each extracts from the context the one
    before it built. *)
Definition Composite (ps : list TextMapPropagator) : TextMapPropagator :=
  mkPropagator (fun ctx => flat_map (fun p => Inject p ctx) ps)
    (fun ctx get => fold_left (fun c p => Extract p c get) ps ctx).

(** The propagator that does nothing (the process-wide default before any
    is registered). *)
Definition NoopPropagator : TextMapPropagator :=
  mkPropagator (fun _ => []) (fun ctx _ => ctx).

End Propagation.
Export Propagation.

(** ** The header carrier and the injection helpers *)

(** [headerCarrier] adapts [nats.Header] to the carrier interface. *)
Abbreviation headerCarrier := Nats.Header.

(** [headerCarrier.Get]: the first value of the key, or the empty string. *)
Definition headerCarrier_Get (c : headerCarrier) (key : string) : string :=
  match Nats.Header_Values c key with
  | v :: _ => v
  | [] => ""
  end.

(** [headerCarrier.Set]. *)
Definition headerCarrier_Set (c : headerCarrier) (key value : string) : headerCarrier :=
  Nats.Header_Set c key value.

(** [headerCarrier.Keys]: every key of the map (Go leaves the order open). *)
Definition headerCarrier_Keys (c : headerCarrier) : list string :=
  fst <$> map_to_list c.

(** [make(nats.Header)]. *)
Definition make_Header : Nats.Header := ∅.

(** [InjectNATSWithPropagator]: a nil header map is initialised first; the
    message is changed in place, so the changed message is returned. *)
Definition InjectNATSWithPropagator (ctx : Context) (msg : Nats.Msg)
    (prop : TextMapPropagator) : Nats.Msg :=
  let header := match Nats.msg_Header msg with
                | None => make_Header
                | Some h => h
                end in
  Nats.mkMsg (Nats.msg_Subject msg) (Nats.msg_Data msg)
    (Some (inject_into prop ctx headerCarrier_Set header)).

(** [ExtractNATSWithPropagator]: a nil header map gives the context back. *)
Definition ExtractNATSWithPropagator (ctx : Context) (header : option Nats.Header)
    (prop : TextMapPropagator) : Context :=
  match header with
  | None => ctx
  | Some h => Extract prop ctx (headerCarrier_Get h)
  end.

(** ** Options *)

Definition instrumentationName := "otx/nats".

Record options := mkOptions {
  tracerName : string;
  prop : option TextMapPropagator;
  processSpans : bool;
  asyncSpans : bool;
  stream : string
}.

Definition defaultOptions : options :=
  mkOptions instrumentationName None true true "".

(** [Option] is a function on a pointer to [options]: a change of the options
    under construction. *)
Definition Option := options -> options.

Definition WithTracerName (name : string) : Option :=
  fun o => mkOptions name (prop o) (processSpans o) (asyncSpans o) (stream o).

Definition WithPropagator (p : TextMapPropagator) : Option :=
  fun o => mkOptions (tracerName o) (Some p) (processSpans o) (asyncSpans o) (stream o).

Definition WithProcessSpans (enabled : bool) : Option :=
  fun o => mkOptions (tracerName o) (prop o) enabled (asyncSpans o) (stream o).

Definition WithAsyncSpans (enabled : bool) : Option :=
  fun o => mkOptions (tracerName o) (prop o) (processSpans o) enabled (stream o).

Definition WithStream (s : string) : Option :=
  fun o => mkOptions (tracerName o) (prop o) (processSpans o) (asyncSpans o) s.

(** [applyOptions]: the options applied in order to the defaults. *)
Definition applyOptions (opts : list Option) : options :=
  fold_left (fun o opt => opt o) opts defaultOptions.

(** The process-wide state the package reads: [otel.GetTracerProvider()],
    [otel.GetTextMapPropagator()] and [tracker.Tracer()]. *)
Record Globals := mkGlobals {
  otel_TracerProvider : TracerProvider;
  otel_TextMapPropagator : TextMapPropagator;
  tracker_Tracer : option Tracer
}.

(** [getTracer]. *)
Definition getTracer (g : Globals) (tp : option TracerProvider) (opts : options) : Tracer :=
  if negb (String.eqb (tracerName opts) instrumentationName) then
    let tp := match tp with None => otel_TracerProvider g | Some p => p end in
    tp_Tracer tp (tracerName opts)
  else
    match tracker_Tracer g with
    | Some t => t
    | None =>
        let tp := match tp with None => otel_TracerProvider g | Some p => p end in
        tp_Tracer tp (tracerName opts)
    end.

(** [getPropagator]. *)
Definition getPropagator (g : Globals) (opts : options) : TextMapPropagator :=
  match prop opts with
  | Some p => p
  | None => otel_TextMapPropagator g
  end.

(** [InjectNATS] and [ExtractNATS] use the registered propagator. *)
Definition InjectNATS (g : Globals) (ctx : Context) (msg : Nats.Msg) : Nats.Msg :=
  InjectNATSWithPropagator ctx msg (otel_TextMapPropagator g).

Definition ExtractNATS (g : Globals) (ctx : Context) (header : option Nats.Header) : Context :=
  ExtractNATSWithPropagator ctx header (otel_TextMapPropagator g).

(** ** The world the wrappers act on

    The spans recorded so far, the number of propagator injections made,
    and the calls that reached the JetStream client. *)

Inductive JSCall :=
| CallPublishMsg (ctx : Context) (msg : Nats.Msg)
| CallPublishAsync (subject : string) (data : bytes)
| CallPublishMsgAsync (msg : Nats.Msg).

Record World := mkWorld {
  spans : list SpanData;
  injections : nat;
  js_calls : list JSCall
}.

Definition emptyWorld : World := mkWorld [] 0 [].

(** State-passing computations over the world. *)
Definition M (A : Type) : Type := World -> A * World.

Definition ret {A} (a : A) : M A := fun w => (a, w).

Definition bind {A B} (m : M A) (k : A -> M B) : M B :=
  fun w => let (a, w') := m w in k a w'.

Declare Scope go_scope.
Delimit Scope go_scope with go.
Notation "x <- c ;; k" := (bind c (fun x => k))
  (at level 20, c at level 99, k at level 200, only parsing) : go_scope.
Notation "' pat <- c ;; k" := (bind c (fun x => match x with pat => k end))
  (at level 20, pat pattern, c at level 99, k at level 200, only parsing) : go_scope.
Notation "c ;; k" := (bind c (fun _ => k))
  (at level 100, k at level 200, right associativity, only parsing) : go_scope.
Open Scope go_scope.

(** [defer f()]: [f] runs when the body returns, and the body's values are
    the function's. *)
Definition defer {A} (deferred : M unit) (body : M A) : M A :=
  r <- body ;; deferred ;; ret r.

(** *** Spans *)

Definition with_spans (w : World) (l : list SpanData) : World :=
  mkWorld l (injections w) (js_calls w).

Definition update_span (s : Span) (f : SpanData -> SpanData) : M unit :=
  fun w => (tt, with_spans w (alter f s (spans w))).

(** [tracer.Start(ctx, name, WithSpanKind(kind), WithAttributes(attrs...))]:
    the parent is the span context of [ctx]; a valid parent hands down its
    trace id, otherwise the span opens a new trace. *)
Definition Start (t : Tracer) (ctx : Context) (name : string) (kind : SpanKind)
    (attrs : list KeyValue) : M (Context * Span) :=
  fun w =>
    let parent := SpanContextFromContext ctx in
    let fresh := (N.of_nat (List.length (spans w)) + 1)%N in
    let tid := if IsValid parent then TraceID parent else fresh in
    let sc := mkSpanContext tid fresh FlagsSampled (TraceState parent) false in
    let sd := mkSpanData t name kind parent sc attrs (Unset, "") [] 0 in
    ((ContextWithSpanContext ctx sc, List.length (spans w)),
     with_spans w (append (spans w) [sd])).

(** [span.IsRecording()]: a span takes updates until it is ended. *)
Definition IsRecording (sd : SpanData) : bool := Nat.eqb (sd_ended sd) 0.

(** [a > b] on status codes, which are numbered [Unset < Error < Ok]. *)
Definition higher (a b : Code) : bool :=
  match a, b with
  | Ok, Unset | Ok, Trace.Error | Trace.Error, Unset => true
  | _, _ => false
  end.

(** [span.RecordError(err)]; a span that has ended takes no event. *)
Definition RecordError (s : Span) (err : error) : M unit :=
  update_span s (fun sd =>
    if negb (IsRecording sd) then sd
    else
      mkSpanData (sd_tracer sd) (sd_name sd) (sd_kind sd) (sd_parent sd) (sd_spanContext sd)
        (sd_attributes sd) (sd_status sd)
        (append (sd_events sd) [mkEvent "exception" (Go.Error err)]) (sd_ended sd)).

(** [span.SetStatus(code, description)]: a span that has ended, or one
    whose status is higher than [code], keeps its status; the description
    is kept for the error status only. *)
Definition SetStatus (s : Span) (code : Code) (description : string) : M unit :=
  update_span s (fun sd =>
    if negb (IsRecording sd) then sd
    else if higher (fst (sd_status sd)) code then sd
    else
      let description := match code with
                         | Trace.Error => description
                         | _ => ""
                         end in
      mkSpanData (sd_tracer sd) (sd_name sd) (sd_kind sd) (sd_parent sd) (sd_spanContext sd)
        (sd_attributes sd) (code, description) (sd_events sd) (sd_ended sd)).

(** [span.SetAttributes(attrs...)]; a span that has ended takes none. *)
Definition SetAttributes (s : Span) (attrs : list KeyValue) : M unit :=
  update_span s (fun sd =>
    if negb (IsRecording sd) then sd
    else
      mkSpanData (sd_tracer sd) (sd_name sd) (sd_kind sd) (sd_parent sd) (sd_spanContext sd)
        (append (sd_attributes sd) attrs) (sd_status sd) (sd_events sd) (sd_ended sd)).

(** [span.End()]; the record counts the calls, so that a second one
    shows. *)
Definition End (s : Span) : M unit :=
  update_span s (fun sd =>
    mkSpanData (sd_tracer sd) (sd_name sd) (sd_kind sd) (sd_parent sd) (sd_spanContext sd)
      (sd_attributes sd) (sd_status sd) (sd_events sd) (S (sd_ended sd))).

(** The position of the first recorded span with the identifiers of [sc]. *)
Fixpoint span_index (sc : SpanContext) (l : list SpanData) : option Span :=
  match l with
  | [] => None
  | sd :: rest =>
      if (TraceID (sd_spanContext sd) =? TraceID sc)%N
         && (SpanID (sd_spanContext sd) =? SpanID sc)%N
      then Some 0%nat
      else S <$> span_index sc rest
  end.

(** [trace.SpanFromContext(ctx)]: the span that [Start] put into the
    context.  A context that holds no span, or only the remote span context
    that an extraction leaves, gives a span whose methods do nothing, which
    is [None] here. *)
Definition SpanFromContext (ctx : Context) : M (option Span) :=
  fun w =>
    let sc := SpanContextFromContext ctx in
    (if Remote sc then None else span_index sc (spans w), w).

(** A method called on the span found in a context. *)
Definition on_span (s : option Span) (method : Span -> M unit) : M unit :=
  match s with
  | Some span => method span
  | None => ret tt
  end.

(** *** The helpers of span.go that act on the span of a context *)

Module Otx.

(** [otx.Span]. *)
Definition Span (ctx : Context) : M (option Trace.Span) := SpanFromContext ctx.

(** [otx.RecordError]; [err = None] is the nil error. *)
Definition RecordError (ctx : Context) (err : option error) : M unit :=
  match err with
  | None => ret tt
  | Some e =>
      span <- SpanFromContext ctx ;;
      on_span span (fun s => RecordError s e) ;;
      on_span span (fun s => SetStatus s Trace.Error (Go.Error e))
  end.

(** [otx.SetSuccess]. *)
Definition SetSuccess (ctx : Context) : M unit :=
  span <- SpanFromContext ctx ;;
  on_span span (fun s => SetStatus s Ok "").

End Otx.

(** [prop.Inject(ctx, headerCarrier(header))], counted in the world. *)
Definition prop_Inject (P : TextMapPropagator) (ctx : Context) (header : Nats.Header)
  : M Nats.Header :=
  fun w => (inject_into P ctx headerCarrier_Set header,
            mkWorld (spans w) (S (injections w)) (js_calls w)).

(** A call that reaches the JetStream client is logged. *)
Definition log_call (c : JSCall) : M unit :=
  fun w => (tt, mkWorld (spans w) (injections w) (append (js_calls w) [c])).

(** ** publisher.go *)

(** [jetstream.PublishOpt], opaque to the package. *)
Record PublishOpt := mkPublishOpt { publish_opt_id : N }.

(** The methods of [jetstream.JetStream] that the publisher calls, each
    given by what it returns. *)
Record JetStream := mkJetStream {
  js_PublishMsg : Context -> Nats.Msg -> list PublishOpt -> option Nats.PubAck * option error;
  js_PublishAsync : string -> bytes -> list PublishOpt -> option Nats.PubAckFuture * option error;
  js_PublishMsgAsync : Nats.Msg -> list PublishOpt -> option Nats.PubAckFuture * option error
}.

Record Publisher := mkPublisher {
  pub_js : JetStream;
  pub_tracer : Tracer;
  pub_prop : TextMapPropagator;
  pub_opts : options
}.

(** [NewPublisherWithProviders]; [js = None] is the nil client. *)
Definition NewPublisherWithProviders (g : Globals) (js : option JetStream)
    (tp : option TracerProvider) (prop : option TextMapPropagator) (opts : list Option)
  : result Publisher :=
  match js with
  | None => Panic (PanicString "otx/nats: JetStream must not be nil")
  | Some js =>
      let o := applyOptions opts in
      let o := match prop with
               | Some p => WithPropagator p o
               | None => o
               end in
      Ret (mkPublisher js (getTracer g tp o) (getPropagator g o) o)
  end.

Definition NewPublisher (g : Globals) (js : option JetStream) (opts : list Option)
  : result Publisher :=
  NewPublisherWithProviders g js None None opts.

(** [Publisher.Publish]. *)
Definition Publish (p : Publisher) (ctx : Context) (subject : string) (data : bytes)
    (opts : list PublishOpt) : M (option Nats.PubAck * option error) :=
  let spanName := opTypePublish ++ " " ++ subject in
  '(ctx, span) <- Start (pub_tracer p) ctx spanName SpanKindProducer
                    (publishAttributes subject "" (len data)) ;;
  defer (End span)
    (header <- prop_Inject (pub_prop p) ctx make_Header ;;
     let msg := Nats.mkMsg subject data (Some header) in
     log_call (CallPublishMsg ctx msg) ;;
     let '(ack, err) := js_PublishMsg (pub_js p) ctx msg opts in
     match err with
     | Some err =>
         RecordError span err ;;
         SetStatus span Trace.Error (Go.Error err) ;;
         ret (None, Some err)
     | None =>
         match ack with
         | Some a =>
             SetAttributes span (publishAttributes subject (FormatUint (Nats.Sequence a)) 0)
         | None => ret tt
         end ;;
         ret (ack, None)
     end).

(** [Publisher.PublishMsg]; the caller's message is changed in place, so it
    is returned beside the results. *)
Definition PublishMsg (p : Publisher) (ctx : Context) (msg : Nats.Msg)
    (opts : list PublishOpt) : M ((option Nats.PubAck * option error) * Nats.Msg) :=
  let subject := Nats.msg_Subject msg in
  let spanName := opTypePublish ++ " " ++ subject in
  '(ctx, span) <- Start (pub_tracer p) ctx spanName SpanKindProducer
                    (publishAttributes subject "" (len (Nats.msg_Data msg))) ;;
  defer (End span)
    (let header := match Nats.msg_Header msg with
                   | None => make_Header
                   | Some h => h
                   end in
     header <- prop_Inject (pub_prop p) ctx header ;;
     let msg := Nats.mkMsg (Nats.msg_Subject msg) (Nats.msg_Data msg) (Some header) in
     log_call (CallPublishMsg ctx msg) ;;
     let '(ack, err) := js_PublishMsg (pub_js p) ctx msg opts in
     match err with
     | Some err =>
         RecordError span err ;;
         SetStatus span Trace.Error (Go.Error err) ;;
         ret ((None, Some err), msg)
     | None =>
         match ack with
         | Some a =>
             SetAttributes span (publishAttributes subject (FormatUint (Nats.Sequence a)) 0)
         | None => ret tt
         end ;;
         ret ((ack, None), msg)
     end).

(** [Publisher.PublishAsync]. *)
Definition PublishAsync (p : Publisher) (subject : string) (data : bytes)
    (opts : list PublishOpt) : M (option Nats.PubAckFuture * option error) :=
  if negb (asyncSpans (pub_opts p)) then
    log_call (CallPublishAsync subject data) ;;
    ret (js_PublishAsync (pub_js p) subject data opts)
  else
    let ctx := Background in
    let spanName := opTypePublish ++ " " ++ subject in
    '(ctx, span) <- Start (pub_tracer p) ctx spanName SpanKindProducer
                      (publishAttributes subject "" (len data)) ;;
    defer (End span)
      (header <- prop_Inject (pub_prop p) ctx make_Header ;;
       let msg := Nats.mkMsg subject data (Some header) in
       log_call (CallPublishMsgAsync msg) ;;
       let '(future, err) := js_PublishMsgAsync (pub_js p) msg opts in
       match err with
       | Some err =>
           RecordError span err ;;
           SetStatus span Trace.Error (Go.Error err) ;;
           ret (None, Some err)
       | None => ret (future, None)
       end).

(** [Publisher.PublishAsyncMsg]; the caller's message is returned beside the
    results, as for [PublishMsg]. *)
Definition PublishAsyncMsg (p : Publisher) (msg : Nats.Msg) (opts : list PublishOpt)
  : M ((option Nats.PubAckFuture * option error) * Nats.Msg) :=
  if negb (asyncSpans (pub_opts p)) then
    log_call (CallPublishMsgAsync msg) ;;
    ret (js_PublishMsgAsync (pub_js p) msg opts, msg)
  else
    let ctx := Background in
    let subject := Nats.msg_Subject msg in
    let spanName := opTypePublish ++ " " ++ subject in
    '(ctx, span) <- Start (pub_tracer p) ctx spanName SpanKindProducer
                      (publishAttributes subject "" (len (Nats.msg_Data msg))) ;;
    defer (End span)
      (let header := match Nats.msg_Header msg with
                     | None => make_Header
                     | Some h => h
                     end in
       header <- prop_Inject (pub_prop p) ctx header ;;
       let msg := Nats.mkMsg (Nats.msg_Subject msg) (Nats.msg_Data msg) (Some header) in
       log_call (CallPublishMsgAsync msg) ;;
       let '(future, err) := js_PublishMsgAsync (pub_js p) msg opts in
       match err with
       | Some err =>
           RecordError span err ;;
           SetStatus span Trace.Error (Go.Error err) ;;
           ret ((None, Some err), msg)
       | None => ret ((future, None), msg)
       end).

(** ** The traced message and its iterators *)

(** [TracedMsg]: the embedded [jetstream.Msg] (nil as [None]) and the
    context field (nil as [None]). *)
Record TracedMsg := mkTracedMsg {
  tm_Msg : option Nats.JMsg;
  tm_ctx : option Context
}.

(** [TracedMsg.Context]. *)
Definition TracedMsg_Context (m : TracedMsg) : Context :=
  match tm_ctx m with
  | None => Background
  | Some c => c
  end.

(** [jetstream.MessageBatch]: what its [Messages()] channel delivers, in
    order, and what [Error()] returns. *)
Record MessageBatch := mkMessageBatch {
  batch_Messages : list (option Nats.JMsg);
  batch_Error : option error
}.

(** The channel [msgChan] together with the goroutine that feeds it: the
    messages the goroutine has still to range over, the value its blocked
    send holds out (the channel is unbuffered), and whether it has closed
    the channel. *)
Record chan := mkChan {
  ch_source : list (option Nats.JMsg);
  ch_offered : option TracedMsg;
  ch_closed : bool
}.

Record TracedMessageBatch := mkTracedMessageBatch {
  tmb_batch : option MessageBatch;
  tmb_msgChan : option chan;
  tmb_ctx : Context;
  tmb_opts : options;
  tmb_stream : string;
  tmb_extractCtx : Context -> option Nats.JMsg -> Context
}.

(** The body of the goroutine's loop: one message re-wrapped. *)
Definition rewrap (b : TracedMessageBatch) (msg : option Nats.JMsg) : TracedMsg :=
  mkTracedMsg msg (Some (tmb_extractCtx b (tmb_ctx b) msg)).

(** [TracedMessageBatch.Messages]: the channel already made, or a new one
    whose goroutine is about to range over the batch; the receiver is
    changed in place, so it is returned too.  On a nil batch the goroutine
    dereferences nil, which ends the program with a panic. *)
Definition TracedMessageBatch_Messages (b : TracedMessageBatch)
  : result (chan * TracedMessageBatch) :=
  match tmb_msgChan b with
  | Some c => Ret (c, b)
  | None =>
      match tmb_batch b with
      | None => Panic (PanicString "runtime error: invalid memory address or nil pointer dereference")
      | Some batch =>
          let c := mkChan (batch_Messages batch) None false in
          Ret (c, mkTracedMessageBatch (tmb_batch b) (Some c) (tmb_ctx b) (tmb_opts b)
                    (tmb_stream b) (tmb_extractCtx b))
      end
  end.

(** [TracedMessageBatch.Error]; the nil batch is dereferenced here too. *)
Definition TracedMessageBatch_Error (b : TracedMessageBatch) : result (option error) :=
  match tmb_batch b with
  | None => Panic (PanicString "runtime error: invalid memory address or nil pointer dereference")
  | Some batch => Ret (batch_Error batch)
  end.

(** One step of the goroutine or of the reader [for msg := range ch]: the
    state is the channel and what the reader has received so far. *)
Inductive chan_step (b : TracedMessageBatch)
  : chan * list TracedMsg -> chan * list TracedMsg -> Prop :=
| step_send msg rest got :
    chan_step b (mkChan (msg :: rest) None false, got)
                (mkChan rest (Some (rewrap b msg)) false, got)
| step_receive src t got :
    chan_step b (mkChan src (Some t) false, got)
                (mkChan src None false, append got [t])
| step_close got :
    chan_step b (mkChan [] None false, got)
                (mkChan [] None true, got).

(** Runs of the goroutine and the reader. *)
Inductive chan_run (b : TracedMessageBatch)
  : chan * list TracedMsg -> chan * list TracedMsg -> Prop :=
| run_done s : chan_run b s s
| run_step s1 s2 s3 : chan_step b s1 s2 -> chan_run b s2 s3 -> chan_run b s1 s3.

(** What a reader that ranges over the channel until it is closed ends up
    with, computed. *)
Fixpoint range_over (b : TracedMessageBatch) (src : list (option Nats.JMsg))
    (got : list TracedMsg) : list TracedMsg :=
  match src with
  | [] => got
  | msg :: rest => range_over b rest (append got [rewrap b msg])
  end.

(** [jetstream.MessagesContext]: the results its coming [Next()] calls will
    return; once they are used up the iterator reports that it is closed. *)
Record MessagesContext := mkMessagesContext {
  mc_pending : list (option Nats.JMsg * option error)
}.

Definition ErrMsgIteratorClosed : error := Err 1 "nats: messages iterator closed".

Definition mc_Next (mc : MessagesContext)
  : (option Nats.JMsg * option error) * MessagesContext :=
  match mc_pending mc with
  | r :: rest => (r, mkMessagesContext rest)
  | [] => ((None, Some ErrMsgIteratorClosed), mc)
  end.

Record TracedMessagesContext := mkTracedMessagesContext {
  tmc_messagesCtx : option MessagesContext;
  tmc_ctx : Context;
  tmc_opts : options;
  tmc_stream : string;
  tmc_extractCtx : Context -> option Nats.JMsg -> Context
}.

(** [TracedMessagesContext.Next]; the iterator moves on, so it is returned
    beside the results.  A nil [messagesCtx] is dereferenced, which panics. *)
Definition TracedMessagesContext_Next (c : TracedMessagesContext)
  : M (result ((option TracedMsg * option error) * TracedMessagesContext)) :=
  match tmc_messagesCtx c with
  | None =>
      ret (Panic (PanicString "runtime error: invalid memory address or nil pointer dereference"))
  | Some messagesCtx =>
      let '((msg, err), mc) := mc_Next messagesCtx in
      let c' := mkTracedMessagesContext (Some mc) (tmc_ctx c) (tmc_opts c) (tmc_stream c)
                  (tmc_extractCtx c) in
      match err with
      | Some err => ret (Ret ((None, Some err), c'))
      | None =>
          ret (Ret ((Some (mkTracedMsg msg (Some (tmc_extractCtx c (tmc_ctx c) msg))), None),
                    c'))
      end
  end.

(** ** The consumer wrapper *)

Record FetchOpt := mkFetchOpt { fetch_opt_id : N }.
Record PullMessagesOpt := mkPullMessagesOpt { pull_opt_id : N }.

(** The methods of [jetstream.Consumer] that the wrapper calls. *)
Record Consumer := mkConsumer {
  c_CachedInfo : option Nats.ConsumerInfo;
  c_Fetch : Z -> list FetchOpt -> option MessageBatch * option error;
  c_FetchBytes : Z -> list FetchOpt -> option MessageBatch * option error;
  c_FetchNoWait : Z -> option MessageBatch * option error;
  c_Next : list FetchOpt -> option Nats.JMsg * option error;
  c_Messages : list PullMessagesOpt -> option MessagesContext * option error
}.

Record TracedConsumer := mkTracedConsumer {
  tc_consumer : Consumer;
  tc_stream : string;
  tc_tracer : Tracer;
  tc_prop : TextMapPropagator;
  tc_opts : options
}.

(** [WrapConsumerWithProviders]; [c = None] is the nil consumer. *)
Definition WrapConsumerWithProviders (g : Globals) (c : option Consumer) (stream : string)
    (tp : option TracerProvider) (prop : option TextMapPropagator) (opts : list Option)
  : result TracedConsumer :=
  match c with
  | None => Panic (PanicString "otx/nats: Consumer must not be nil")
  | Some c =>
      let o := applyOptions opts in
      let o := match prop with
               | Some p => WithPropagator p o
               | None => o
               end in
      Ret (mkTracedConsumer c stream (getTracer g tp o) (getPropagator g o) o)
  end.

Definition WrapConsumer (g : Globals) (c : option Consumer) (stream : string)
    (opts : list Option) : result TracedConsumer :=
  WrapConsumerWithProviders g c stream None None opts.

(** [TracedConsumer.startFetchSpan]. *)
Definition startFetchSpan (tc : TracedConsumer) : M (Context * Span) :=
  let consumerName := match c_CachedInfo (tc_consumer tc) with
                      | Some info => Nats.Name info
                      | None => ""
                      end in
  let spanName := opTypeReceive ++ " " ++ tc_stream tc in
  Start (tc_tracer tc) Background spanName SpanKindClient
    (receiveAttributes (tc_stream tc) consumerName 0).

(** [TracedConsumer.extractContext]. *)
Definition extractContext (tc : TracedConsumer) (ctx : Context) (msg : option Nats.JMsg)
  : Context :=
  match msg with
  | None => ctx
  | Some m =>
      match Nats.Headers m with
      | None => ctx
      | Some headers => Extract (tc_prop tc) ctx (headerCarrier_Get headers)
      end
  end.

(** [TracedConsumer.wrapBatch]. *)
Definition wrapBatch (tc : TracedConsumer) (ctx : Context) (batch : option MessageBatch)
  : TracedMessageBatch :=
  mkTracedMessageBatch batch None ctx (tc_opts tc) (tc_stream tc) (extractContext tc).

(** [TracedConsumer.Fetch]. *)
Definition Fetch (tc : TracedConsumer) (batch : Z) (opts : list FetchOpt)
  : M (option TracedMessageBatch * option error) :=
  '(ctx, span) <- startFetchSpan tc ;;
  let '(msgBatch, err) := c_Fetch (tc_consumer tc) batch opts in
  match err with
  | Some err =>
      RecordError span err ;;
      SetStatus span Trace.Error (Go.Error err) ;;
      End span ;;
      ret (None, Some err)
  | None =>
      End span ;;
      ret (Some (wrapBatch tc ctx msgBatch), None)
  end.

(** [TracedConsumer.FetchBytes]. *)
Definition FetchBytes (tc : TracedConsumer) (maxBytes : Z) (opts : list FetchOpt)
  : M (option TracedMessageBatch * option error) :=
  '(ctx, span) <- startFetchSpan tc ;;
  let '(msgBatch, err) := c_FetchBytes (tc_consumer tc) maxBytes opts in
  match err with
  | Some err =>
      RecordError span err ;;
      SetStatus span Trace.Error (Go.Error err) ;;
      End span ;;
      ret (None, Some err)
  | None =>
      End span ;;
      ret (Some (wrapBatch tc ctx msgBatch), None)
  end.

(** [TracedConsumer.FetchNoWait]. *)
Definition FetchNoWait (tc : TracedConsumer) (batch : Z)
  : M (option TracedMessageBatch * option error) :=
  '(ctx, span) <- startFetchSpan tc ;;
  let '(msgBatch, err) := c_FetchNoWait (tc_consumer tc) batch in
  match err with
  | Some err =>
      RecordError span err ;;
      SetStatus span Trace.Error (Go.Error err) ;;
      End span ;;
      ret (None, Some err)
  | None =>
      End span ;;
      ret (Some (wrapBatch tc ctx msgBatch), None)
  end.

(** [TracedConsumer.Messages]. *)
Definition Messages (tc : TracedConsumer) (opts : list PullMessagesOpt)
  : M (option TracedMessagesContext * option error) :=
  let '(messagesCtx, err) := c_Messages (tc_consumer tc) opts in
  match err with
  | Some err => ret (None, Some err)
  | None =>
      ret (Some (mkTracedMessagesContext messagesCtx Background (tc_opts tc)
                   (tc_stream tc) (extractContext tc)), None)
  end.

(** [TracedConsumer.Next]. *)
Definition Next (tc : TracedConsumer) (opts : list FetchOpt)
  : M (option TracedMsg * option error) :=
  '(_, span) <- startFetchSpan tc ;;
  let '(msg, err) := c_Next (tc_consumer tc) opts in
  match err with
  | Some err =>
      RecordError span err ;;
      SetStatus span Trace.Error (Go.Error err) ;;
      End span ;;
      ret (None, Some err)
  | None =>
      End span ;;
      ret (Some (mkTracedMsg msg (Some (extractContext tc Background msg))), None)
  end.

(** ** The callback handler wrapper *)

(** The user's callback on a traced message: Go code that acts on the
    world (through the span in the message's context it can record errors,
    set the status, end the span or start further spans) and then returns
    or panics with a value. *)
Definition Handler := TracedMsg -> M (result unit).

(** [jetstream.MessageHandler]: called with a message, it acts on the world
    and returns or panics. *)
Definition MessageHandler := Nats.JMsg -> M (result unit).

(** [fmt.Errorf("panic: %v", r)]. *)
Definition Errorf_panic (r : PanicValue) : error := Err 0 ("panic: " ++ format_v r).

(** The deferred function of the wrapped handler, which runs when the
    callback is done: [recover()] yields the panic value if the callback
    panicked, and [panic(r)] raises it again. *)
Definition recover_and_end (span : Span) (outcome : result unit) : M (result unit) :=
  match outcome with
  | Panic r =>
      RecordError span (Errorf_panic r) ;;
      SetStatus span Trace.Error "panic in handler" ;;
      End span ;;
      ret (Panic r)
  | Ret _ =>
      End span ;;
      ret (Ret tt)
  end.

(** [MessageHandlerWithTracingProviders]; [handler = None] is the nil
    function. *)
Definition MessageHandlerWithTracingProviders (g : Globals) (handler : option Handler)
    (tp : option TracerProvider) (prop : option TextMapPropagator) (opts : list Option)
  : result MessageHandler :=
  match handler with
  | None => Panic (PanicString "otx/nats: handler must not be nil")
  | Some handler =>
      let o := applyOptions opts in
      let o := match prop with
               | Some p => WithPropagator p o
               | None => o
               end in
      let tracer := getTracer g tp o in
      let propagator := getPropagator g o in
      Ret (fun msg =>
        let parentCtx := Background in
        let parentCtx := match Nats.Headers msg with
                         | Some headers =>
                             Extract propagator parentCtx (headerCarrier_Get headers)
                         | None => parentCtx
                         end in
        let '(streamName, consumerName) :=
          match Nats.Metadata msg with
          | (Some metadata, None) => (Nats.Stream metadata, Nats.Consumer metadata)
          | _ => ("", "")
          end in
        let subject := if negb (String.eqb (Nats.Subject msg) "")
                       then Nats.Subject msg else "" in
        let streamName := if negb (String.eqb (stream o) "")
                          then stream o else streamName in
        let spanName := opTypeProcess ++ " " ++ streamName in
        '(spanCtx, span) <- Start tracer parentCtx spanName SpanKindConsumer
                              (processAttributes streamName consumerName subject ""
                                 (len (Nats.Data msg))) ;;
        let tracedMsg := mkTracedMsg (Some msg) (Some spanCtx) in
        outcome <- handler tracedMsg ;;
        recover_and_end span outcome)
  end.

Definition MessageHandlerWithTracing (g : Globals) (handler : option Handler)
    (opts : list Option) : result MessageHandler :=
  MessageHandlerWithTracingProviders g handler None None opts.

(** ** Standalone trace extraction and process spans *)

(** [NewTracedMsgWithPropagator]; [msg = None] is the nil message and
    [prop = None] the nil propagator, for which the registered one is
    used. *)
Definition NewTracedMsgWithPropagator (g : Globals) (msg : option Nats.JMsg)
    (prop : option TextMapPropagator) : TracedMsg :=
  let ctx := Background in
  let prop := match prop with
              | None => otel_TextMapPropagator g
              | Some p => p
              end in
  let ctx := match msg with
             | Some m =>
                 match Nats.Headers m with
                 | Some headers => Extract prop ctx (headerCarrier_Get headers)
                 | None => ctx
                 end
             | None => ctx
             end in
  mkTracedMsg msg (Some ctx).

(** [NewTracedMsg]. *)
Definition NewTracedMsg (g : Globals) (msg : option Nats.JMsg) : TracedMsg :=
  NewTracedMsgWithPropagator g msg None.

(** The function [StartProcessSpanWithTracer] returns for ending the span:
    a non-nil error is recorded with error status first. *)
Definition endFunc (span : Span) (err : option error) : M unit :=
  match err with
  | Some e =>
      RecordError span e ;;
      SetStatus span Trace.Error (Go.Error e) ;;
      End span
  | None => End span
  end.

(** [TracedMsg.StartProcessSpanWithTracer]: the new context and the
    function that ends the span. *)
Definition StartProcessSpanWithTracer (g : Globals) (m : TracedMsg)
    (tp : option TracerProvider) (opts : list Option)
  : M (Context * (option error -> M unit)) :=
  let o := applyOptions opts in
  let tracer := getTracer g tp o in
  let '(streamName, consumerName, subject, bodySize) :=
    match tm_Msg m with
    | Some msg =>
        let '(streamName, consumerName) :=
          match Nats.Metadata msg with
          | (Some metadata, None) => (Nats.Stream metadata, Nats.Consumer metadata)
          | _ => ("", "")
          end in
        let subject := if negb (String.eqb (Nats.Subject msg) "")
                       then Nats.Subject msg else "" in
        (streamName, consumerName, subject, len (Nats.Data msg))
    | None => ("", "", "", 0)
    end in
  let messageID := "" in
  let streamName := if negb (String.eqb (stream o) "") then stream o else streamName in
  let spanName := opTypeProcess ++ " " ++ streamName in
  '(ctx, span) <- Start tracer (TracedMsg_Context m) spanName SpanKindConsumer
                    (processAttributes streamName consumerName subject messageID
                       bodySize) ;;
  ret (ctx, endFunc span).

(** [TracedMsg.StartProcessSpan]. *)
Definition StartProcessSpan (g : Globals) (m : TracedMsg) (opts : list Option)
  : M (Context * (option error -> M unit)) :=
  StartProcessSpanWithTracer g m None opts.

(** ** Options, as the package's five constructors build them *)

Inductive OptionSpec :=
| SetTracerName (name : string)
| SetPropagator (p : TextMapPropagator)
| SetProcessSpans (enabled : bool)
| SetAsyncSpans (enabled : bool)
| SetStream (s : string).

Definition option_of (spec : OptionSpec) : Option :=
  match spec with
  | SetTracerName name => WithTracerName name
  | SetPropagator p => WithPropagator p
  | SetProcessSpans enabled => WithProcessSpans enabled
  | SetAsyncSpans enabled => WithAsyncSpans enabled
  | SetStream s => WithStream s
  end.

(** The value the last option of a kind gives, if any option of that kind
    is in the list. *)
Fixpoint last_setting {A} (pick : OptionSpec -> option A) (specs : list OptionSpec)
  : option A :=
  match specs with
  | [] => None
  | spec :: rest =>
      match last_setting pick rest with
      | Some v => Some v
      | None => pick spec
      end
  end.

Definition pick_tracerName (spec : OptionSpec) : option string :=
  match spec with SetTracerName name => Some name | _ => None end.
Definition pick_prop (spec : OptionSpec) : option TextMapPropagator :=
  match spec with SetPropagator p => Some p | _ => None end.
Definition pick_processSpans (spec : OptionSpec) : option bool :=
  match spec with SetProcessSpans b => Some b | _ => None end.
Definition pick_asyncSpans (spec : OptionSpec) : option bool :=
  match spec with SetAsyncSpans b => Some b | _ => None end.
Definition pick_stream (spec : OptionSpec) : option string :=
  match spec with SetStream s => Some s | _ => None end.

(** ** Notions used in the statements *)

(** A propagator keeps trace identity when what it extracts from any
    carrier that reads back the pairs it injected carries the trace id and
    the span id of the injected span context. *)
Definition keeps_trace_identity (P : TextMapPropagator) : Prop :=
  forall (ctx base : Context) (get : string -> string),
    IsValid (SpanContextFromContext ctx) = true ->
    fits (SpanContextFromContext ctx) = true ->
    (forall k v, last_write k (Inject P ctx) = Some v -> get k = v) ->
    TraceID (SpanContextFromContext (Extract P base get))
      = TraceID (SpanContextFromContext ctx) /\
    SpanID (SpanContextFromContext (Extract P base get))
      = SpanID (SpanContextFromContext ctx).

(** The world [w'] has exactly one span more than [w], namely [sd]. *)
Definition opened (w w' : World) (sd : SpanData) : Prop :=
  spans w' = append (spans w) [sd].

(** The span carries error status and an exception event for [err], and
    was ended once. *)
Definition error_recorded (err : error) (sd : SpanData) : Prop :=
  fst (sd_status sd) = Trace.Error /\
  In (mkEvent "exception" (Go.Error err)) (sd_events sd) /\
  sd_ended sd = 1%nat.

(** The eight wrapped operations, each with its receiver and arguments. *)
Inductive Call :=
| DoPublish (p : Publisher) (ctx : Context) (subject : string) (data : bytes)
    (opts : list PublishOpt)
| DoPublishMsg (p : Publisher) (ctx : Context) (msg : Nats.Msg) (opts : list PublishOpt)
| DoPublishAsync (p : Publisher) (subject : string) (data : bytes) (opts : list PublishOpt)
| DoPublishAsyncMsg (p : Publisher) (msg : Nats.Msg) (opts : list PublishOpt)
| DoFetch (tc : TracedConsumer) (batch : Z) (opts : list FetchOpt)
| DoFetchBytes (tc : TracedConsumer) (maxBytes : Z) (opts : list FetchOpt)
| DoFetchNoWait (tc : TracedConsumer) (batch : Z)
| DoNext (tc : TracedConsumer) (opts : list FetchOpt).

(** What the caller sees of the two results: whether the first is nil, and
    the error. *)
Definition is_nil {A} (o : option A) : bool :=
  match o with
  | None => true
  | Some _ => false
  end.

Definition seen {A} (r : option A * option error) : bool * option error :=
  (is_nil (fst r), snd r).

Definition run_call (c : Call) : M (bool * option error) :=
  match c with
  | DoPublish p ctx subject data opts =>
      r <- Publish p ctx subject data opts ;; ret (seen r)
  | DoPublishMsg p ctx msg opts =>
      r <- PublishMsg p ctx msg opts ;; ret (seen (fst r))
  | DoPublishAsync p subject data opts =>
      r <- PublishAsync p subject data opts ;; ret (seen r)
  | DoPublishAsyncMsg p msg opts =>
      r <- PublishAsyncMsg p msg opts ;; ret (seen (fst r))
  | DoFetch tc batch opts => r <- Fetch tc batch opts ;; ret (seen r)
  | DoFetchBytes tc maxBytes opts => r <- FetchBytes tc maxBytes opts ;; ret (seen r)
  | DoFetchNoWait tc batch => r <- FetchNoWait tc batch ;; ret (seen r)
  | DoNext tc opts => r <- Next tc opts ;; ret (seen r)
  end.

(** What the JetStream client answers to a logged call. *)
Definition answer (js : JetStream) (opts : list PublishOpt) (call : JSCall)
  : bool * option error :=
  match call with
  | CallPublishMsg ctx msg => seen (js_PublishMsg js ctx msg opts)
  | CallPublishAsync subject data => seen (js_PublishAsync js subject data opts)
  | CallPublishMsgAsync msg => seen (js_PublishMsgAsync js msg opts)
  end.

(** What the underlying client returned during the call: for a publish, its
    answer to the call that reached it; for a fetch, the answer of the
    consumer method. *)
Definition delegate_result (c : Call) (w : World) : option (bool * option error) :=
  match c with
  | DoPublish p _ _ _ opts | DoPublishMsg p _ _ opts
  | DoPublishAsync p _ _ opts | DoPublishAsyncMsg p _ opts =>
      answer (pub_js p) opts <$> last (js_calls (snd (run_call c w)))
  | DoFetch tc batch opts => Some (seen (c_Fetch (tc_consumer tc) batch opts))
  | DoFetchBytes tc maxBytes opts => Some (seen (c_FetchBytes (tc_consumer tc) maxBytes opts))
  | DoFetchNoWait tc batch => Some (seen (c_FetchNoWait (tc_consumer tc) batch))
  | DoNext tc opts => Some (seen (c_Next (tc_consumer tc) opts))
  end.

Definition delegate_error (c : Call) (w : World) : option error :=
  match delegate_result c w with
  | Some r => snd r
  | None => None
  end.

(** Whether the call is one that opens a span: the asynchronous publishes
    do so only when the async-span option is on. *)
Definition traced (c : Call) : bool :=
  match c with
  | DoPublishAsync p _ _ _ | DoPublishAsyncMsg p _ _ => asyncSpans (pub_opts p)
  | _ => true
  end.

(** The error comes back with a nil result, after a span with the error
    recorded on it. *)
Definition error_returned_and_recorded (c : Call) (w : World) (err : error) : Prop :=
  fst (run_call c w) = (true, Some err) /\
  exists sd, opened w (snd (run_call c w)) sd /\ error_recorded err sd.

(** The results are the client's, and no span was opened. *)
Definition passed_through (c : Call) (w : World) : Prop :=
  Some (fst (run_call c w)) = delegate_result c w /\
  spans (snd (run_call c w)) = spans w.

(** A receive span was opened and closed between [w] and [w']. *)
Definition receive_span_opened (stream : string) (w w' : World) : Prop :=
  exists sd, opened w w' sd /\
    sd_name sd = opTypeReceive ++ " " ++ stream /\
    sd_kind sd = SpanKindClient /\
    sd_ended sd = 1%nat.

(** A client span was opened between [w] and [w'] that has no parent. *)
Definition root_span_opened (w w' : World) : Prop :=
  exists sd, opened w w' sd /\
    sd_kind sd = SpanKindClient /\
    sd_parent sd = emptySpanContext /\
    IsValid (sd_parent sd) = false.

(** The continuous iterator is one that [Messages] of [tc] made, possibly
    moved on by calls of [Next]. *)
Definition made_by (tc : TracedConsumer) (c : TracedMessagesContext) : Prop :=
  tmc_ctx c = Background /\ tmc_extractCtx c = extractContext tc.

(** The offered value of a channel, as a list. *)
Definition offered_list (c : chan) : list TracedMsg :=
  match ch_offered c with
  | Some t => [t]
  | None => []
  end.

(** What has been received, what is held out and what is still to come:
    together they always make up the re-wrapped batch, in order. *)
Definition in_order (b : TracedMessageBatch) (s : chan * list TracedMsg) : list TracedMsg :=
  append (snd s) (append (offered_list (fst s)) (map (rewrap b) (ch_source (fst s)))).

(** A closed channel has nothing left and nothing held out. *)
Definition drained_if_closed (s : chan * list TracedMsg) : Prop :=
  ch_closed (fst s) = true -> ch_source (fst s) = [] /\ ch_offered (fst s) = None.

(** The attribute list binds no key twice. *)
Definition distinct_keys (attrs : list KeyValue) : Prop :=
  NoDup (map Attribute.Key attrs).

(** The default when no option of a kind was given. *)
Definition setting_or {A} (d : A) (o : option A) : A :=
  match o with
  | Some v => v
  | None => d
  end.

(** The inbound message a consumer sees for a published one. *)
Definition delivered (sent : Nats.Msg) (md : option Nats.MsgMetadata * option error)
  : Nats.JMsg :=
  Nats.mkJMsg (Nats.msg_Subject sent) (Nats.msg_Data sent) (Nats.msg_Header sent) md.

(** The stream of a message's metadata, when the metadata is there and
    came without error. *)
Definition metadata_stream (msg : Nats.JMsg) : string :=
  match Nats.Metadata msg with
  | (Some metadata, None) => Nats.Stream metadata
  | _ => ""
  end.

Definition metadata_consumer (msg : Nats.JMsg) : string :=
  match Nats.Metadata msg with
  | (Some metadata, None) => Nats.Consumer metadata
  | _ => ""
  end.

(** The span context [Start] gives a span opened in world [w] under
    [parent]. *)
Definition next_span_context (w : World) (parent : SpanContext) : SpanContext :=
  let fresh := (N.of_nat (List.length (spans w)) + 1)%N in
  mkSpanContext (if IsValid parent then TraceID parent else fresh) fresh FlagsSampled
    (TraceState parent) false.

(** The header map a publish leaves on a message that came with [header]. *)
Definition injected (P : TextMapPropagator) (ctx : Context) (header : option Nats.Header)
  : Nats.Header :=
  inject_into P ctx headerCarrier_Set (default make_Header header).

(** Status and events of a span after the client's answer. *)
Definition status_after (err : option error) : Code * string :=
  match err with
  | Some e => (Trace.Error, Go.Error e)
  | None => (Unset, "")
  end.

Definition events_after (err : option error) : list Event :=
  match err with
  | Some e => [mkEvent "exception" (Go.Error e)]
  | None => []
  end.

(** The receive span of a fetch. *)
Definition receive_span (tc : TracedConsumer) (w : World) (err : option error) : SpanData :=
  mkSpanData (tc_tracer tc) (opTypeReceive ++ " " ++ tc_stream tc) SpanKindClient
    emptySpanContext (next_span_context w emptySpanContext)
    (receiveAttributes (tc_stream tc)
       (match c_CachedInfo (tc_consumer tc) with
        | Some info => Nats.Name info
        | None => ""
        end) 0)
    (status_after err) (events_after err) 1.

(** The name, kind and parent a call's span is expected to have. *)
Definition call_span_name (c : Call) : string :=
  match c with
  | DoPublish _ _ subject _ _ | DoPublishAsync _ subject _ _ =>
      opTypePublish ++ " " ++ subject
  | DoPublishMsg _ _ msg _ | DoPublishAsyncMsg _ msg _ =>
      opTypePublish ++ " " ++ Nats.msg_Subject msg
  | DoFetch tc _ _ | DoFetchBytes tc _ _ | DoFetchNoWait tc _ | DoNext tc _ =>
      opTypeReceive ++ " " ++ tc_stream tc
  end.

Definition call_span_kind (c : Call) : SpanKind :=
  match c with
  | DoPublish _ _ _ _ _ | DoPublishMsg _ _ _ _
  | DoPublishAsync _ _ _ _ | DoPublishAsyncMsg _ _ _ => SpanKindProducer
  | _ => SpanKindClient
  end.

Definition call_parent (c : Call) : SpanContext :=
  match c with
  | DoPublish _ ctx _ _ _ | DoPublishMsg _ ctx _ _ => SpanContextFromContext ctx
  | _ => emptySpanContext
  end.

(** The publisher of a publish call. *)
Definition call_publisher (c : Call) : option Publisher :=
  match c with
  | DoPublish p _ _ _ _ | DoPublishMsg p _ _ _
  | DoPublishAsync p _ _ _ | DoPublishAsyncMsg p _ _ => Some p
  | _ => None
  end.

(** The message of the last call that reached the client with one. *)
Definition sent_message (w : World) : option Nats.Msg :=
  match last (js_calls w) with
  | Some (CallPublishMsg _ msg) | Some (CallPublishMsgAsync msg) => Some msg
  | _ => None
  end.

(** The recorder has span ids left to hand out. *)
Definition has_room (w : World) : Prop :=
  (N.of_nat (List.length (spans w)) + 1 < 2 ^ 64)%N.

(** What the client answered to the publish that reached it last. *)
Definition last_publish_answer (p : Publisher) (opts : list PublishOpt) (w : World)
  : option (option Nats.PubAck * option error) :=
  match last (js_calls w) with
  | Some (CallPublishMsg ctx msg) => Some (js_PublishMsg (pub_js p) ctx msg opts)
  | _ => None
  end.


(** The wrapped handler, called with [msg] in world [w], starts the span
    [sd] and nothing else, calls the callback on the message with the
    context [spanCtx] that holds that span, and leaves the rest to its
    deferred function. *)
Definition runs_callback_in (handler : Handler) (wrapped : MessageHandler)
    (msg : Nats.JMsg) (w : World) (sd : SpanData) (spanCtx : Context) : Prop :=
  SpanContextFromContext spanCtx = sd_spanContext sd /\
  sd_status sd = (Unset, "") /\ sd_events sd = [] /\ sd_ended sd = 0%nat /\
  wrapped msg w =
    bind (handler (mkTracedMsg (Some msg) (Some spanCtx)))
      (recover_and_end (List.length (spans w)))
      (with_spans w (append (spans w) [sd])).

(** The record [sd'] is that of the span started as [sd], ended once:
    the two agree on tracer, name, kind, parent, span context and
    attributes. *)
Definition ended_once (sd sd' : SpanData) : Prop :=
  sd_tracer sd' = sd_tracer sd /\ sd_name sd' = sd_name sd /\ sd_kind sd' = sd_kind sd /\
  sd_parent sd' = sd_parent sd /\ sd_spanContext sd' = sd_spanContext sd /\
  sd_attributes sd' = sd_attributes sd /\ sd_ended sd' = 1%nat.

(** For a callback that records nothing, the span that the wrapped handler
    started is the one span more in the world it leaves. *)
Definition only_span_when_untouched (handler : Handler) (wrapped : MessageHandler)
    (msg : Nats.JMsg) (w : World) (sd : SpanData) (spanCtx : Context) : Prop :=
  spans (snd (handler (mkTracedMsg (Some msg) (Some spanCtx))
                (with_spans w (append (spans w) [sd]))))
    = append (spans w) [sd] ->
  exists sd', opened w (snd (wrapped msg w)) sd' /\ ended_once sd sd'.


(** The manual pattern that the package documents: [NewTracedMsg],
    [StartProcessSpan], [defer endSpan(nil)], and then the callback's code
    on the message with the context that was returned. *)
Definition standalone_processing (g : Globals) (handler : Handler) (opts : list Option)
    (msg : Nats.JMsg) : M (result unit) :=
  r <- StartProcessSpan g (NewTracedMsg g (Some msg)) opts ;;
  defer (snd r None) (handler (mkTracedMsg (Some msg) (Some (fst r)))).

(** ** Sample values *)

Module Sample.

Definition globals : Globals := mkGlobals (mkTracerProvider 1) TraceContext None.

Definition err : error := Err 7 "nats: timeout".

(** A client on which every publish fails with [err]. *)
Definition failing_js : JetStream :=
  mkJetStream (fun _ _ _ => (None, Some err)) (fun _ _ _ => (None, Some err))
    (fun _ _ => (None, Some err)).

(** A client that acknowledges every publish. *)
Definition acking_js : JetStream :=
  mkJetStream (fun _ _ _ => (Some (Nats.mkPubAck "ORDERS" 42), None))
    (fun _ _ _ => (Some (Nats.mkFuture 1), None))
    (fun _ _ => (Some (Nats.mkFuture 2), None)).

Definition publisher_of (js : JetStream) (opts : list Option) : Publisher :=
  match NewPublisher globals (Some js) opts with
  | Ret p => p
  | Panic _ => mkPublisher js (mkTracer (mkTracerProvider 0) "") NoopPropagator defaultOptions
  end.

Definition payload : bytes := [Byte.x00; Byte.x01; Byte.x02].

(** An active span in the caller's context. *)
Definition parent : SpanContext :=
  mkSpanContext 0x0af7651916cd43dd8448eb211c80319c 0xb7ad6b7169203331 1 "" false.

Definition parent_ctx : Context := ContextWithSpanContext Background parent.

Definition headers : Nats.Header := headerCarrier_Set make_Header "X-Custom" "value".

Definition nil_header_msg : Nats.Msg := Nats.mkMsg "orders.created" payload None.

Definition inbound (data : bytes) (h : option Nats.Header) : Nats.JMsg :=
  Nats.mkJMsg "orders.created" data h (Some (Nats.mkMetadata "ORDERS" "order-processor"), None).

Definition traced_headers : Nats.Header :=
  inject_into TraceContext parent_ctx headerCarrier_Set make_Header.

Definition m1 : Nats.JMsg := inbound [Byte.x01] (Some traced_headers).
Definition m2 : Nats.JMsg := inbound [Byte.x02] None.
Definition m3 : Nats.JMsg := inbound [Byte.x03] (Some headers).

Definition batch : MessageBatch := mkMessageBatch [Some m1; Some m2; Some m3] None.

(** A consumer whose fetches succeed. *)
Definition consumer : Consumer :=
  mkConsumer (Some (Nats.mkConsumerInfo "order-processor"))
    (fun _ _ => (Some batch, None)) (fun _ _ => (Some batch, None))
    (fun _ => (Some batch, None)) (fun _ => (Some m1, None))
    (fun _ => (Some (mkMessagesContext [(Some m1, None); (Some m2, None)]), None)).

(** A consumer whose fetches fail with [err]. *)
Definition failing_consumer : Consumer :=
  mkConsumer None
    (fun _ _ => (None, Some err)) (fun _ _ => (None, Some err))
    (fun _ => (None, Some err)) (fun _ => (None, Some err))
    (fun _ => (None, Some err)).

Definition traced_consumer_of (c : Consumer) : TracedConsumer :=
  match WrapConsumer globals (Some c) "ORDERS" [] with
  | Ret tc => tc
  | Panic _ => mkTracedConsumer c "" (mkTracer (mkTracerProvider 0) "") NoopPropagator
                 defaultOptions
  end.

(** A world in which a span of the caller is already recorded. *)
Definition busy_world : World :=
  snd (Start (mkTracer (mkTracerProvider 1) "app") Background "caller" SpanKindInternal []
         emptyWorld).

(** A callback that panics and one that returns. *)
Definition panicking : Handler := fun _ => ret (Panic (PanicString "handler panic")).
Definition returning : Handler := fun _ => ret (Ret tt).

(** A callback that reports a failure on its span with [otx.RecordError]
    and returns, and one that does so and then panics. *)
Definition recording : Handler :=
  fun tm => Otx.RecordError (TracedMsg_Context tm) (Some err) ;; ret (Ret tt).

Definition recording_then_panicking : Handler :=
  fun tm =>
    Otx.RecordError (TracedMsg_Context tm) (Some err) ;;
    ret (Panic (PanicString "handler panic")).



Definition wrapped_of (h : Handler) (opts : list Option) : MessageHandler :=
  match MessageHandlerWithTracing globals (Some h) opts with
  | Ret f => f
  | Panic _ => fun _ => ret (Ret tt)
  end.

End Sample.

(** * Properties *)

(** ** Attributes *)

Lemma publishAttributes_fixed subject msgID bodySize :
  firstn 4 (publishAttributes subject msgID bodySize) =
    [ Attribute.String_ attrMessagingSystem messagingSystem;
      Attribute.String_ attrMessagingOperationName opTypePublish;
      Attribute.String_ attrMessagingOperationType opTypeSend;
      Attribute.String_ attrMessagingDestinationName subject ].
Proof.
  unfold publishAttributes.
  destruct (negb (String.eqb msgID "")), (0 <? bodySize); reflexivity.
Qed.

(** C5. [publishAttributes "orders.created" "" 0] holds the four fixed pairs
    and neither the message-id key nor the body-size key;
    [publishAttributes "orders.created" "msg-1" 10] holds both keys with
    those values. *)
Theorem publishAttributes_presence :
  let unset := publishAttributes "orders.created" "" 0 in
  let set := publishAttributes "orders.created" "msg-1" 10 in
  (Attribute.has_key attrMessagingMessageID unset = false /\
   Attribute.has_key attrMessagingMessageBodySize unset = false /\
   Attribute.lookup attrMessagingSystem unset = Some (Attribute.StringValue "nats") /\
   Attribute.lookup attrMessagingOperationName unset = Some (Attribute.StringValue "publish") /\
   Attribute.lookup attrMessagingOperationType unset = Some (Attribute.StringValue "send") /\
   Attribute.lookup attrMessagingDestinationName unset
     = Some (Attribute.StringValue "orders.created")) /\
  (Attribute.lookup attrMessagingMessageID set = Some (Attribute.StringValue "msg-1") /\
   Attribute.lookup attrMessagingMessageBodySize set = Some (Attribute.IntValue 10)).
Proof.
  cbv zeta. repeat split; vm_compute; reflexivity.
Qed.

(** ** Construction *)

(** C1. Each of the six construction entry points, given a nil required
    dependency, panics with its fixed message whatever the other arguments
    are, and so returns no value. *)
Theorem nil_dependency_panics :
  forall (g : Globals) (tp : option TracerProvider) (prop : option TextMapPropagator)
         (opts : list Option) (stream : string),
    NewPublisher g None opts
      = Panic (PanicString "otx/nats: JetStream must not be nil") /\
    NewPublisherWithProviders g None tp prop opts
      = Panic (PanicString "otx/nats: JetStream must not be nil") /\
    WrapConsumer g None stream opts
      = Panic (PanicString "otx/nats: Consumer must not be nil") /\
    WrapConsumerWithProviders g None stream tp prop opts
      = Panic (PanicString "otx/nats: Consumer must not be nil") /\
    MessageHandlerWithTracing g None opts
      = Panic (PanicString "otx/nats: handler must not be nil") /\
    MessageHandlerWithTracingProviders g None tp prop opts
      = Panic (PanicString "otx/nats: handler must not be nil").
Proof.
  intros. repeat split; reflexivity.
Qed.

(** With the dependency present, construction returns. *)
Lemma NewPublisherWithProviders_returns g js tp prop opts :
  returns (NewPublisherWithProviders g (Some js) tp prop opts) = true.
Proof. reflexivity. Qed.

Lemma WrapConsumerWithProviders_returns g c stream tp prop opts :
  returns (WrapConsumerWithProviders g (Some c) stream tp prop opts) = true.
Proof. reflexivity. Qed.

Lemma MessageHandlerWithTracingProviders_returns g h tp prop opts :
  returns (MessageHandlerWithTracingProviders g (Some h) tp prop opts) = true.
Proof. reflexivity. Qed.

(** ** Options *)

Lemma applyOptions_nil : applyOptions [] = defaultOptions.
Proof. reflexivity. Qed.

Lemma applyOptions_snoc opts opt :
  applyOptions (append opts [opt]) = opt (applyOptions opts).
Proof. unfold applyOptions, append. now rewrite fold_left_app. Qed.

Lemma default_toggles :
  processSpans defaultOptions = true /\ asyncSpans defaultOptions = true.
Proof. split; reflexivity. Qed.

(** ** Worlds *)

Lemma alter_last {A} (f : A -> A) (l : list A) (x : A) :
  alter f (List.length l) (append l [x]) = append l [f x].
Proof.
  unfold append. induction l as [|a l IH]; simpl; [reflexivity|].
  f_equal. exact IH.
Qed.

Lemma last_append {A} (l : list A) (x : A) : last (append l [x]) = Some x.
Proof. unfold append. apply last_snoc. Qed.

Lemma append_one_more {A} (l : list A) (x : A) : append l [x] <> l.
Proof.
  unfold append. intros H. apply (f_equal (@List.length A)) in H.
  rewrite length_app in H. simpl in H. lia.
Qed.

(** Unfold the wrappers and the span operations down to the world. *)
Ltac run_go :=
  unfold run_call, Publish, PublishMsg, PublishAsync, PublishAsyncMsg,
    Fetch, FetchBytes, FetchNoWait, Next, Messages, startFetchSpan, defer,
    prop_Inject, log_call, RecordError, SetStatus, SetAttributes, End,
    update_span, Start, bind, ret, with_spans in *;
  cbn [fst snd spans injections js_calls] in *.

(** Replay the updates of the span just opened. *)
Ltac world_simpl :=
  cbn [fst snd spans injections js_calls] in *;
  rewrite ?alter_last, ?last_append in *;
  cbn [fst snd spans injections js_calls fmap option_fmap option_map seen answer is_nil
       IsRecording higher sd_ended sd_status Nat.eqb negb] in *.

(** The goal is an error outcome whose span is the one in the world. *)
Ltac recorded :=
  split; [reflexivity|]; eexists; split; [reflexivity|];
  repeat split; cbn; auto.

(** ** Receive spans are roots *)

Lemma startFetchSpan_root tc w :
  root_span_opened w (snd (startFetchSpan tc w)) /\
  fst (fst (startFetchSpan tc w)) =
    ContextWithSpanContext Background
      (mkSpanContext (N.of_nat (List.length (spans w)) + 1)
         (N.of_nat (List.length (spans w)) + 1) FlagsSampled "" false) /\
  snd (fst (startFetchSpan tc w)) = List.length (spans w).
Proof.
  unfold root_span_opened, opened. run_go.
  repeat split. eexists. repeat split.
Qed.

(** C10. Every receive span of [Fetch], [FetchBytes], [FetchNoWait] and
    [Next] is started from the background context: whatever the world
    holds when the call is made, the span recorded for the call has the
    empty (invalid) span context as parent. *)
Theorem receive_spans_are_roots :
  forall (tc : TracedConsumer) (w : World) (n : Z) (opts : list FetchOpt),
    root_span_opened w (snd (Fetch tc n opts w)) /\
    root_span_opened w (snd (FetchBytes tc n opts w)) /\
    root_span_opened w (snd (FetchNoWait tc n w)) /\
    root_span_opened w (snd (Next tc opts w)).
Proof.
  intros tc w n opts. unfold root_span_opened, opened.
  repeat split; run_go.
  - destruct (c_Fetch _ _ _) as [mb [e|]]; world_simpl; eexists; repeat split.
  - destruct (c_FetchBytes _ _ _) as [mb [e|]]; world_simpl; eexists; repeat split.
  - destruct (c_FetchNoWait _ _) as [mb [e|]]; world_simpl; eexists; repeat split.
  - destruct (c_Next _ _) as [mb [e|]]; world_simpl; eexists; repeat split.
Qed.

(** The same at a world where a span of the caller is open. *)
Example fetch_root_in_busy_world :
  let tc := Sample.traced_consumer_of Sample.consumer in
  (sd_parent <$> last (spans (snd (Fetch tc 10 [] Sample.busy_world))))
    = Some emptySpanContext /\
  List.length (spans (snd (Fetch tc 10 [] Sample.busy_world))) = 2%nat.
Proof. split; vm_compute; reflexivity. Qed.

(** ** Delegate errors *)

Lemma publish_error_recorded p ctx subject data opts w err :
  delegate_error (DoPublish p ctx subject data opts) w = Some err ->
  error_returned_and_recorded (DoPublish p ctx subject data opts) w err.
Proof.
  intros H.
  unfold error_returned_and_recorded, delegate_error, delegate_result in *. run_go.
  destruct (js_PublishMsg _ _ _ _) as [ack [e|]] eqn:E.
  - world_simpl. rewrite E in H. cbn in H. inversion H; subst. recorded.
  - destruct ack; world_simpl; rewrite E in H; discriminate.
Qed.

Lemma publishMsg_error_recorded p ctx msg opts w err :
  delegate_error (DoPublishMsg p ctx msg opts) w = Some err ->
  error_returned_and_recorded (DoPublishMsg p ctx msg opts) w err.
Proof.
  intros H.
  unfold error_returned_and_recorded, delegate_error, delegate_result in *. run_go.
  destruct (js_PublishMsg _ _ _ _) as [ack [e|]] eqn:E.
  - world_simpl. rewrite E in H. cbn in H. inversion H; subst. recorded.
  - destruct ack; world_simpl; rewrite E in H; discriminate.
Qed.

Lemma publishAsync_error p subject data opts w err :
  delegate_error (DoPublishAsync p subject data opts) w = Some err ->
  if asyncSpans (pub_opts p)
  then error_returned_and_recorded (DoPublishAsync p subject data opts) w err
  else passed_through (DoPublishAsync p subject data opts) w.
Proof.
  intros H.
  unfold error_returned_and_recorded, passed_through, delegate_error, delegate_result in *.
  run_go.
  destruct (asyncSpans (pub_opts p)); cbn [negb] in *.
  - destruct (js_PublishMsgAsync _ _ _) as [future [e|]] eqn:E.
    + world_simpl. rewrite E in H. cbn in H. inversion H; subst. recorded.
    + world_simpl. rewrite E in H. discriminate.
  - world_simpl. split; reflexivity.
Qed.

Lemma publishAsyncMsg_error p msg opts w err :
  delegate_error (DoPublishAsyncMsg p msg opts) w = Some err ->
  if asyncSpans (pub_opts p)
  then error_returned_and_recorded (DoPublishAsyncMsg p msg opts) w err
  else passed_through (DoPublishAsyncMsg p msg opts) w.
Proof.
  intros H.
  unfold error_returned_and_recorded, passed_through, delegate_error, delegate_result in *.
  run_go.
  destruct (asyncSpans (pub_opts p)); cbn [negb] in *.
  - destruct (js_PublishMsgAsync _ _ _) as [future [e|]] eqn:E.
    + world_simpl. rewrite E in H. cbn in H. inversion H; subst. recorded.
    + world_simpl. rewrite E in H. discriminate.
  - world_simpl. split; reflexivity.
Qed.

Lemma fetch_family_error_recorded c w err :
  match c with
  | DoFetch _ _ _ | DoFetchBytes _ _ _ | DoFetchNoWait _ _ | DoNext _ _ => True
  | _ => False
  end ->
  delegate_error c w = Some err ->
  error_returned_and_recorded c w err.
Proof.
  intros Hc H.
  unfold error_returned_and_recorded, delegate_error, delegate_result in *.
  destruct c; try contradiction; run_go.
  - destruct (c_Fetch _ _ _) as [mb [e|]]; world_simpl; inversion H; subst. recorded.
  - destruct (c_FetchBytes _ _ _) as [mb [e|]]; world_simpl; inversion H; subst. recorded.
  - destruct (c_FetchNoWait _ _) as [mb [e|]]; world_simpl; inversion H; subst. recorded.
  - destruct (c_Next _ _) as [mb [e|]]; world_simpl; inversion H; subst. recorded.
Qed.

(** C2, as amended. Whenever the underlying client call of one of the eight
    operations returns an error: if the operation opens a span (always,
    except the asynchronous publishes with async spans off), the wrapper
    returns that same error with a nil result, and the span it opened has
    the error recorded, error status, and was ended once; if it opens no
    span, the client's results are returned as they are. *)
Theorem delegate_error_propagated :
  forall (c : Call) (w : World) (err : error),
    delegate_error c w = Some err ->
    if traced c then error_returned_and_recorded c w err else passed_through c w.
Proof.
  intros c w err H.
  destruct c; cbn [traced].
  - now apply publish_error_recorded.
  - now apply publishMsg_error_recorded.
  - now apply publishAsync_error.
  - now apply publishAsyncMsg_error.
  - now apply fetch_family_error_recorded.
  - now apply fetch_family_error_recorded.
  - now apply fetch_family_error_recorded.
  - now apply fetch_family_error_recorded.
Qed.

Lemma delegate_error_propagated_witness :
  let c := DoPublish (Sample.publisher_of Sample.failing_js []) Sample.parent_ctx
             "orders.created" Sample.payload [] in
  delegate_error c emptyWorld = Some Sample.err /\
  error_returned_and_recorded c emptyWorld Sample.err.
Proof.
  cbv zeta. split; [reflexivity|].
  apply (delegate_error_propagated
           (DoPublish (Sample.publisher_of Sample.failing_js []) Sample.parent_ctx
              "orders.created" Sample.payload []) emptyWorld Sample.err).
  reflexivity.
Defined.

(** C2, as stated, fails: with async spans off, [PublishAsync] on a client
    that returns an error gives the error back without any span on which it
    could have been recorded. *)
Lemma async_off_error_not_recorded :
  let c := DoPublishAsync (Sample.publisher_of Sample.failing_js [WithAsyncSpans false])
             "orders.created" Sample.payload [] in
  delegate_error c emptyWorld = Some Sample.err /\
  fst (run_call c emptyWorld) = (true, Some Sample.err) /\
  spans (snd (run_call c emptyWorld)) = [] /\
  ~ error_returned_and_recorded c emptyWorld Sample.err.
Proof.
  cbv zeta. repeat split; try reflexivity.
  intros [_ [sd [Ho _]]]. unfold opened in Ho. vm_compute in Ho. discriminate.
Qed.

(** ** The async-span option *)

Lemma constructed_async_off g js tp prop opts :
  exists p,
    NewPublisherWithProviders g (Some js) tp prop (append opts [WithAsyncSpans false]) = Ret p /\
    pub_js p = js /\
    asyncSpans (pub_opts p) = false.
Proof.
  eexists. split; [reflexivity|]. split; [reflexivity|].
  cbn [pub_opts]. rewrite applyOptions_snoc. now destruct prop.
Qed.

(** C6. On a publisher whose async-span option is off, [PublishAsync] and
    [PublishAsyncMsg] return exactly what the underlying client returns and
    change the world only by that one client call: no span is started or
    ended, no injection is made, and the message handed to the client, like
    the caller's message afterwards, is the caller's message as it was, a
    nil header map included. *)
Theorem async_spans_off_pass_through :
  forall (p : Publisher),
    asyncSpans (pub_opts p) = false ->
    (forall subject data opts w,
        PublishAsync p subject data opts w =
          (js_PublishAsync (pub_js p) subject data opts,
           mkWorld (spans w) (injections w)
             (append (js_calls w) [CallPublishAsync subject data]))) /\
    (forall msg opts w,
        PublishAsyncMsg p msg opts w =
          ((js_PublishMsgAsync (pub_js p) msg opts, msg),
           mkWorld (spans w) (injections w)
             (append (js_calls w) [CallPublishMsgAsync msg]))).
Proof.
  intros p Hoff. split; intros;
    unfold PublishAsync, PublishAsyncMsg; rewrite Hoff; reflexivity.
Qed.

Lemma async_spans_off_pass_through_witness :
  let p := Sample.publisher_of Sample.acking_js [WithAsyncSpans false] in
  asyncSpans (pub_opts p) = false /\
  PublishAsyncMsg p Sample.nil_header_msg [] Sample.busy_world =
    ((Some (Nats.mkFuture 2), None, Sample.nil_header_msg),
     mkWorld (spans Sample.busy_world) 0 [CallPublishMsgAsync Sample.nil_header_msg]).
Proof.
  cbv zeta. split; [reflexivity|].
  destruct (async_spans_off_pass_through
              (Sample.publisher_of Sample.acking_js [WithAsyncSpans false]) eq_refl)
    as [_ H].
  exact (H Sample.nil_header_msg [] Sample.busy_world).
Defined.

(** With the option on, the same call starts a span and injects. *)
Example async_spans_on_traces :
  let p := Sample.publisher_of Sample.acking_js [] in
  let w := snd (PublishAsyncMsg p Sample.nil_header_msg [] emptyWorld) in
  List.length (spans w) = 1%nat /\ injections w = 1%nat.
Proof. split; vm_compute; reflexivity. Qed.

(** ** Continuous consumption *)

Lemma Messages_made_by tc opts w c :
  fst (Messages tc opts w) = (Some c, None) -> made_by tc c.
Proof.
  unfold Messages.
  destruct (c_Messages _ _) as [mc [e|]]; cbn; intros H; inversion H; subst.
  split; reflexivity.
Qed.

(** C7, as amended. [Messages] opens no span, and neither does [Next] on the
    iterator it returns: a successful [Next] leaves the world as it was and
    returns the client's message with the context that the consumer's
    propagator extracts from that message's header map over the background
    context (the background context itself for a nil message or one
    without header map).  The consumer-level [Next], in every world, opens
    one receive span and ends it once. *)
Theorem continuous_consumption_opens_no_span :
  forall (tc : TracedConsumer) (opts : list PullMessagesOpt) (w : World),
    snd (Messages tc opts w) = w /\
    (forall c, fst (Messages tc opts w) = (Some c, None) -> made_by tc c) /\
    (forall c w1 tm c' w1',
        made_by tc c ->
        TracedMessagesContext_Next c w1 = (Ret ((Some tm, None), c'), w1') ->
        w1' = w1 /\
        made_by tc c' /\
        exists messagesCtx msg,
          tmc_messagesCtx c = Some messagesCtx /\
          fst (mc_Next messagesCtx) = (msg, None) /\
          tm_Msg tm = msg /\
          TracedMsg_Context tm =
            match msg with
            | None => Background
            | Some m =>
                match Nats.Headers m with
                | None => Background
                | Some headers =>
                    Extract (tc_prop tc) Background (headerCarrier_Get headers)
                end
            end) /\
    (forall (fopts : list FetchOpt) (w1 : World),
        receive_span_opened (tc_stream tc) w1 (snd (Next tc fopts w1))).
Proof.
  intros tc opts w. split; [|split; [|split]].
  - unfold Messages. destruct (c_Messages _ _) as [mc [e|]]; reflexivity.
  - intros c. apply Messages_made_by.
  - intros c w1 tm c' w1' [Hctx Hext] Hnext.
    unfold TracedMessagesContext_Next in Hnext.
    destruct (tmc_messagesCtx c) as [messagesCtx|] eqn:Hmc; [|discriminate].
    destruct (mc_Next messagesCtx) as [[msg [e|]] mc'] eqn:Hn;
      unfold ret in Hnext; inversion Hnext; subst.
    split; [reflexivity|]. split; [split; assumption|].
    exists messagesCtx, msg. rewrite Hn, Hext, Hctx.
    split; [reflexivity|]. split; [reflexivity|]. split; [reflexivity|].
    unfold TracedMsg_Context, extractContext. cbn [tm_ctx].
    destruct msg as [m|]; [|reflexivity]. now destruct (Nats.Headers m).
  - intros fopts w1. unfold receive_span_opened, opened. run_go.
    destruct (c_Next _ _) as [msg [e|]]; world_simpl;
      eexists; (split; [reflexivity|]); split_and!; reflexivity.
Qed.

Lemma continuous_consumption_opens_no_span_witness :
  let tc := Sample.traced_consumer_of Sample.consumer in
  let c := mkTracedMessagesContext
             (Some (mkMessagesContext [(Some Sample.m1, None); (Some Sample.m2, None)]))
             Background (tc_opts tc) (tc_stream tc) (extractContext tc) in
  let c' := mkTracedMessagesContext
              (Some (mkMessagesContext [(Some Sample.m2, None)]))
              Background (tc_opts tc) (tc_stream tc) (extractContext tc) in
  let tm := mkTracedMsg (Some Sample.m1)
              (Some (Extract TraceContext Background
                       (headerCarrier_Get Sample.traced_headers))) in
  fst (Messages tc [] Sample.busy_world) = (Some c, None) /\
  made_by tc c /\
  TracedMessagesContext_Next c Sample.busy_world
    = (Ret ((Some tm, None), c'), Sample.busy_world) /\
  made_by tc c' /\
  TraceID (SpanContextFromContext (TracedMsg_Context tm)) = TraceID Sample.parent /\
  receive_span_opened "ORDERS" Sample.busy_world (snd (Next tc [] Sample.busy_world)).
Proof.
  intros tc c c' tm.
  destruct (continuous_consumption_opens_no_span tc [] Sample.busy_world)
    as (_ & Hmade & Hnext & Hspan).
  assert (Hc : made_by tc c) by (apply Hmade; reflexivity).
  destruct (Hnext c Sample.busy_world tm c' Sample.busy_world Hc eq_refl)
    as (_ & Hc' & _).
  split; [reflexivity|].
  split; [exact Hc|].
  split; [reflexivity|].
  split; [exact Hc'|].
  split; [reflexivity|].
  exact (Hspan [] Sample.busy_world).
Defined.

(** C7, as stated, fails: a successful [Next] on the iterator that
    [Messages] returned records no receive span. *)
Lemma continuous_next_opens_no_receive_span :
  let tc := Sample.traced_consumer_of Sample.consumer in
  exists c tm c' w',
    fst (Messages tc [] emptyWorld) = (Some c, None) /\
    TracedMessagesContext_Next c emptyWorld = (Ret ((Some tm, None), c'), w') /\
    spans w' = [] /\
    ~ receive_span_opened (tc_stream tc) emptyWorld w'.
Proof.
  cbv zeta. eexists. eexists. eexists. eexists.
  split; [reflexivity|]. split; [reflexivity|]. split; [reflexivity|].
  intros [sd [Ho _]]. unfold opened in Ho. cbn in Ho. discriminate.
Qed.

(** The consumer-level [Next], by contrast, records one. *)
Example consumer_next_opens_receive_span :
  let tc := Sample.traced_consumer_of Sample.consumer in
  receive_span_opened (tc_stream tc) emptyWorld (snd (Next tc [] emptyWorld)).
Proof.
  cbv zeta. eexists. split; [reflexivity|]. repeat split.
Qed.

(** ** The batch iterator *)

Lemma range_over_spec b src got :
  range_over b src got = append got (map (rewrap b) src).
Proof.
  revert got. induction src as [|msg rest IH]; intros got; simpl.
  - unfold append. now rewrite app_nil_r.
  - rewrite IH. unfold append. now rewrite <- app_assoc.
Qed.

Lemma chan_step_in_order b s s' :
  chan_step b s s' -> in_order b s' = in_order b s.
Proof.
  intros H. destruct H; unfold in_order, offered_list, append; cbn.
  - reflexivity.
  - now rewrite <- app_assoc.
  - reflexivity.
Qed.

Lemma chan_run_in_order b s s' :
  chan_run b s s' -> in_order b s' = in_order b s.
Proof.
  induction 1 as [s|s1 s2 s3 Hstep _ IH]; [reflexivity|].
  rewrite IH. now apply chan_step_in_order.
Qed.

Lemma chan_step_drained b s s' :
  chan_step b s s' -> drained_if_closed s'.
Proof.
  intros H. destruct H; unfold drained_if_closed; cbn; intros Hc;
    try discriminate; split; reflexivity.
Qed.

Lemma chan_run_drained b s s' :
  chan_run b s s' -> drained_if_closed s -> drained_if_closed s'.
Proof.
  induction 1 as [s|s1 s2 s3 Hstep _ IH]; [trivial|].
  intros _. apply IH. eapply chan_step_drained; eassumption.
Qed.

(** The goroutine and a reader that keeps receiving reach the closed
    channel, the reader holding what [range_over] computes. *)
Lemma chan_run_completes b src got :
  chan_run b (mkChan src None false, got) (mkChan [] None true, range_over b src got).
Proof.
  revert got. induction src as [|msg rest IH]; intros got; simpl.
  - eapply run_step; [apply step_close | apply run_done].
  - eapply run_step; [apply step_send|].
    eapply run_step; [apply step_receive|].
    apply IH.
Qed.

(** The order of a batch iterator, for any way of extracting contexts. *)
Lemma batch_run_fifo b batch c :
  tmb_batch b = Some batch ->
  ch_source c = batch_Messages batch -> ch_offered c = None -> ch_closed c = false ->
  let wrapped := map (rewrap b) (batch_Messages batch) in
  (exists final, ch_closed final = true /\ chan_run b (c, []) (final, wrapped)) /\
  (forall c' got,
      chan_run b (c, []) (c', got) ->
      (exists rest, wrapped = append got rest) /\
      (ch_closed c' = true -> got = wrapped)).
Proof.
  intros Hb Hsrc Hoff Hcl wrapped. destruct c as [src off cl]. cbn in Hsrc, Hoff, Hcl.
  subst src off cl. split.
  - exists (mkChan [] None true). split; [reflexivity|].
    pose proof (chan_run_completes b (batch_Messages batch) []) as Hrun.
    rewrite range_over_spec in Hrun. exact Hrun.
  - intros c' got Hrun.
    pose proof (chan_run_in_order _ _ _ Hrun) as Hord.
    pose proof (chan_run_drained _ _ _ Hrun) as Hdr.
    unfold in_order, offered_list in Hord. cbn in Hord.
    fold wrapped in Hord.
    split.
    + eexists. symmetry. exact Hord.
    + intros Hclosed.
      destruct Hdr as [Hsrc Hoff]; [discriminate | exact Hclosed |].
      cbn in Hsrc, Hoff. rewrite Hsrc, Hoff in Hord. cbn in Hord.
      unfold append in Hord. rewrite app_nil_r in Hord. now symmetry.
Qed.

(** C9. For the batch iterator that the consumer wrapper makes of a batch
    that delivers [m1 ... mn], [Messages] returns a channel (the same one
    when called again) on which a reader that ranges until the channel is
    closed receives exactly [m1 ... mn] in that order, each with the
    context that the consumer's propagator extracts from that message's
    own header map over the batch's context (the batch's context itself
    for a nil message or one without header map), so with a context that
    no other message of the batch has a part in; at any moment what has
    been received is a prefix of that sequence, and a run to the closed
    channel exists. *)
Theorem batch_iterator_fifo :
  forall (tc : TracedConsumer) (ctx : Context) (batch : MessageBatch),
    let b := wrapBatch tc ctx (Some batch) in
    let wrapped :=
      map (fun msg =>
             mkTracedMsg msg
               (Some match msg with
                     | None => ctx
                     | Some m =>
                         match Nats.Headers m with
                         | None => ctx
                         | Some headers =>
                             Extract (tc_prop tc) ctx (headerCarrier_Get headers)
                         end
                     end))
        (batch_Messages batch) in
    exists c b',
      TracedMessageBatch_Messages b = Ret (c, b') /\
      TracedMessageBatch_Messages b' = Ret (c, b') /\
      map tm_Msg wrapped = batch_Messages batch /\
      List.length wrapped = List.length (batch_Messages batch) /\
      (exists final, ch_closed final = true /\ chan_run b (c, []) (final, wrapped)) /\
      (forall c' got,
          chan_run b (c, []) (c', got) ->
          (exists rest, wrapped = append got rest) /\
          (ch_closed c' = true -> got = wrapped)).
Proof.
  intros tc ctx batch b wrapped.
  assert (Hw : wrapped = map (rewrap b) (batch_Messages batch)).
  { subst wrapped. apply map_ext. intros [m|]; [|reflexivity].
    unfold rewrap, b, wrapBatch, extractContext. cbn.
    now destruct (Nats.Headers m). }
  eexists. eexists.
  split; [reflexivity|]. split; [reflexivity|].
  split; [|split].
  - subst wrapped. rewrite map_map. cbn. apply map_id.
  - subst wrapped. apply length_map.
  - rewrite Hw. now apply (batch_run_fifo b batch).
Qed.

(** Three messages with distinct payloads, one of them carrying a parent
    trace: they come out in order, and only that one has the trace. *)
Example batch_of_three :
  let tc := Sample.traced_consumer_of Sample.consumer in
  let b := wrapBatch tc Background (Some Sample.batch) in
  let got := range_over b (batch_Messages Sample.batch) [] in
  map tm_Msg got = [Some Sample.m1; Some Sample.m2; Some Sample.m3] /\
  map (fun t => TraceID (SpanContextFromContext (TracedMsg_Context t))) got
    = [TraceID Sample.parent; 0%N; 0%N].
Proof. split; vm_compute; reflexivity. Qed.

(** ** The callback handler wrapper *)

(** An update of a recorded span replaces its record. *)
Lemma alter_at {A} (f : A -> A) (l : list A) (i : nat) (x : A) :
  l !! i = Some x -> alter f i l = <[i := f x]> l.
Proof.
  revert i. induction l as [|a l IH]; intros [|i] H; simpl in *; try discriminate.
  - now inversion H.
  - f_equal. now apply IH.
Qed.

Lemma lookup_append_last {A} (l : list A) (x : A) :
  append l [x] !! List.length l = Some x.
Proof.
  unfold append. induction l as [|a l IH]; simpl; [reflexivity|exact IH].
Qed.

(** The deferred function, on a span that is open and not marked [Ok]. *)
Lemma recover_and_end_run span outcome w sd :
  spans w !! span = Some sd ->
  sd_ended sd = 0%nat ->
  fst (sd_status sd) <> Ok ->
  recover_and_end span outcome w =
    (match outcome with
     | Panic r => Panic r
     | Ret _ => Ret tt
     end,
     with_spans w
       (<[span :=
            match outcome with
            | Panic r =>
                mkSpanData (sd_tracer sd) (sd_name sd) (sd_kind sd) (sd_parent sd)
                  (sd_spanContext sd) (sd_attributes sd) (Trace.Error, "panic in handler")
                  (append (sd_events sd) [mkEvent "exception" ("panic: " ++ format_v r)])
                  1
            | Ret _ =>
                mkSpanData (sd_tracer sd) (sd_name sd) (sd_kind sd) (sd_parent sd)
                  (sd_spanContext sd) (sd_attributes sd) (sd_status sd) (sd_events sd) 1
            end]> (spans w))).
Proof.
  intros Hsd Hended Hstatus.
  assert (Hlt : (span < List.length (spans w))%nat)
    by (apply lookup_lt_is_Some; eauto).
  assert (Hhigher : higher (fst (sd_status sd)) Trace.Error = false)
    by (destruct (fst (sd_status sd)); [reflexivity|reflexivity|congruence]).
  destruct outcome as [[]|r]; unfold recover_and_end; run_go.
  - rewrite (alter_at _ _ _ _ Hsd). cbv beta. rewrite Hended. reflexivity.
  - rewrite (alter_at _ _ _ _ Hsd).
    rewrite (alter_at _ (<[span:=_]> (spans w)) span _ (list_lookup_insert_eq _ _ _ Hlt)).
    rewrite list_insert_insert_eq.
    rewrite (alter_at _ (<[span:=_]> (spans w)) span _ (list_lookup_insert_eq _ _ _ Hlt)).
    rewrite list_insert_insert_eq. cbv beta.
    unfold IsRecording. rewrite Hended. cbn [Nat.eqb negb sd_ended sd_status].
    rewrite Hhigher. reflexivity.
Qed.

(** One invocation of a wrapped handler: the process span is started, the
    callback is run on a traced message whose context holds that span, and
    the deferred function does the rest. *)
Lemma handler_span g handler tp prop opts :
  exists wrapped,
    MessageHandlerWithTracingProviders g (Some handler) tp prop opts = Ret wrapped /\
    forall msg w, exists sd spanCtx,
      runs_callback_in handler wrapped msg w sd spanCtx /\
      let o := match prop with
               | Some p => WithPropagator p (applyOptions opts)
               | None => applyOptions opts
               end in
      let streamName := if String.eqb (stream o) "" then metadata_stream msg else stream o in
      sd_tracer sd = getTracer g tp o /\
      sd_kind sd = SpanKindConsumer /\
      sd_name sd = opTypeProcess ++ " " ++ streamName /\
      sd_attributes sd =
        processAttributes streamName (metadata_consumer msg) (Nats.Subject msg) ""
          (len (Nats.Data msg)) /\
      sd_parent sd =
        SpanContextFromContext
          (ExtractNATSWithPropagator Background (Nats.Headers msg) (getPropagator g o)) /\
      sd_spanContext sd =
        mkSpanContext
          (if IsValid (sd_parent sd) then TraceID (sd_parent sd)
           else N.of_nat (List.length (spans w)) + 1)%N
          (N.of_nat (List.length (spans w)) + 1)%N FlagsSampled
          (TraceState (sd_parent sd)) false.
Proof.
  eexists. split; [reflexivity|].
  intros msg w. cbn beta.
  unfold runs_callback_in, metadata_stream, metadata_consumer, Start, bind at 1.
  destruct (Nats.Metadata msg) as [[md|] [e|]];
    destruct (String.eqb (stream _) ""); cbn [negb];
    destruct (String.eqb_spec (Nats.Subject msg) ""); cbn [negb];
    eexists; eexists; (split; [split_and!; [| | | |reflexivity]; reflexivity|]);
    destruct (Nats.Headers msg); cbn; split_and!; try reflexivity; try congruence.
Qed.

Lemma insert_last {A} (l : list A) (x y : A) :
  <[List.length l := y]> (append l [x]) = append l [y].
Proof.
  unfold append. induction l as [|a l IH]; simpl; [reflexivity|].
  f_equal. exact IH.
Qed.

Lemma untouched_span handler wrapped msg w sd spanCtx :
  runs_callback_in handler wrapped msg w sd spanCtx ->
  only_span_when_untouched handler wrapped msg w sd spanCtx.
Proof.
  intros (_ & Hst & _ & Hended & Heq) Hsame. rewrite Heq. unfold bind.
  destruct (handler _ _) as [outcome w2]. cbn [snd] in Hsame.
  rewrite (recover_and_end_run _ outcome w2 sd);
    [ | rewrite Hsame; apply lookup_append_last | exact Hended
      | rewrite Hst; discriminate ].
  unfold opened. cbn [snd spans with_spans]. rewrite Hsame, insert_last.
  eexists. split; [reflexivity|].
  destruct outcome as [[]|v]; unfold ended_once; cbn; split_and!; reflexivity.
Qed.









(** A callback that marks its span successful before it panics: the panic
    is recorded as an event, but the status [Ok] stays. *)
Example handler_marking_success_then_panicking :
  let handler : Handler :=
    fun tm => Otx.SetSuccess (TracedMsg_Context tm) ;;
              ret (Panic (PanicString "handler panic")) in
  let r := Sample.wrapped_of handler [WithStream "ORDERS"] Sample.m2 emptyWorld in
  fst r = Panic (PanicString "handler panic") /\
  map (fun sd => (sd_name sd, sd_status sd, sd_events sd, sd_ended sd)) (spans (snd r)) =
    [("process ORDERS", (Ok, ""), [mkEvent "exception" "panic: handler panic"], 1%nat)].
Proof. split; vm_compute; reflexivity. Qed.

(** The panic test of the package, replayed. *)
Example handler_panic_replayed :
  let wrapped := Sample.wrapped_of Sample.panicking [WithStream "ORDERS"] in
  let r := wrapped (Sample.inbound Sample.payload None) emptyWorld in
  fst r = Panic (PanicString "handler panic") /\
  map (fun sd => (sd_name sd, sd_status sd, sd_events sd, sd_ended sd)) (spans (snd r)) =
    [("process ORDERS", (Trace.Error, "panic in handler"),
      [mkEvent "exception" "panic: handler panic"], 1%nat)].
Proof. split; vm_compute; reflexivity. Qed.

(** A callback that reports a failure before it panics: the wrapper's
    status and event come after the callback's. *)
Example handler_recording_then_panicking :
  let wrapped := Sample.wrapped_of Sample.recording_then_panicking [WithStream "ORDERS"] in
  let r := wrapped Sample.m2 emptyWorld in
  fst r = Panic (PanicString "handler panic") /\
  map (fun sd => (sd_name sd, sd_status sd, sd_events sd, sd_ended sd)) (spans (snd r)) =
    [("process ORDERS", (Trace.Error, "panic in handler"),
      [mkEvent "exception" "nats: timeout"; mkEvent "exception" "panic: handler panic"],
      1%nat)].
Proof. split; vm_compute; reflexivity. Qed.

(** ** The process-span option *)

(** The wrapped handler starts one process span for every message, whatever
    options it was built with: the callback is run in a world with one
    span more, and the wrapper records no span after it. *)
Lemma process_span_whatever_options g handler tp prop opts :
  exists wrapped,
    MessageHandlerWithTracingProviders g (Some handler) tp prop opts = Ret wrapped /\
    forall msg w, exists sd spanCtx,
      runs_callback_in handler wrapped msg w sd spanCtx /\
      List.length (spans (with_spans w (append (spans w) [sd]))) = S (List.length (spans w)) /\
      List.length (spans (snd (wrapped msg w))) =
        List.length
          (spans (snd (handler (mkTracedMsg (Some msg) (Some spanCtx))
                         (with_spans w (append (spans w) [sd]))))).
Proof.
  destruct (handler_span g handler tp prop opts) as (wrapped & Hw & Hspan).
  exists wrapped. split; [exact Hw|].
  intros msg w.
  destruct (Hspan msg w) as (sd & spanCtx & Hrun & _).
  exists sd, spanCtx. split; [exact Hrun|]. split.
  - cbn. unfold append. rewrite length_app. cbn. lia.
  - destruct Hrun as (_ & _ & _ & _ & Heq). rewrite Heq. unfold bind.
    destruct (handler _ _) as [[[]|v] w2]; unfold recover_and_end; run_go;
      now rewrite ?length_alter.
Qed.

(** C8. With the default options one process span is started per message;
    with [WithProcessSpans false] the option is recorded, and a process
    span is started all the same. *)
Theorem process_span_toggle_ignored :
  let on := Sample.wrapped_of Sample.returning [] in
  let off := Sample.wrapped_of Sample.returning [WithProcessSpans false] in
  processSpans (applyOptions []) = true /\
  processSpans (applyOptions [WithProcessSpans false]) = false /\
  map sd_name (spans (snd (on Sample.m1 emptyWorld))) = ["process ORDERS"] /\
  map sd_name (spans (snd (off Sample.m1 emptyWorld))) = ["process ORDERS"].
Proof. repeat split; vm_compute; reflexivity. Qed.

(** ** The header carrier and the round trip *)

Lemma headerCarrier_Get_Set_eq (c : headerCarrier) k v :
  headerCarrier_Get (headerCarrier_Set c k v) k = v.
Proof.
  unfold headerCarrier_Get, headerCarrier_Set, Nats.Header_Values, Nats.Header_Set.
  now rewrite lookup_insert_eq.
Qed.

Lemma headerCarrier_Get_Set_ne (c : headerCarrier) k k' v :
  k <> k' -> headerCarrier_Get (headerCarrier_Set c k v) k' = headerCarrier_Get c k'.
Proof.
  intros Hne.
  unfold headerCarrier_Get, headerCarrier_Set, Nats.Header_Values, Nats.Header_Set.
  now rewrite lookup_insert_ne.
Qed.

Lemma Get_untouched writes : forall (h : headerCarrier) k,
  last_write k writes = None ->
  headerCarrier_Get (fold_left (fun c kv => headerCarrier_Set c (fst kv) (snd kv)) writes h) k
    = headerCarrier_Get h k.
Proof.
  induction writes as [|[k' v'] rest IH]; intros h k Hl; simpl in *; [reflexivity|].
  destruct (last_write k rest) eqn:Hrest; [discriminate|].
  destruct (String.eqb_spec k' k) as [->|Hne]; [discriminate|].
  rewrite IH by assumption. now apply headerCarrier_Get_Set_ne.
Qed.

Lemma Get_last_write writes : forall (h : headerCarrier) k v,
  last_write k writes = Some v ->
  headerCarrier_Get (fold_left (fun c kv => headerCarrier_Set c (fst kv) (snd kv)) writes h) k
    = v.
Proof.
  induction writes as [|[k' v'] rest IH]; intros h k v Hl; simpl in *; [discriminate|].
  destruct (last_write k rest) eqn:Hrest.
  - inversion Hl; subst. now apply IH.
  - destruct (String.eqb_spec k' k) as [->|Hne]; [|discriminate].
    inversion Hl; subst. rewrite Get_untouched by assumption.
    apply headerCarrier_Get_Set_eq.
Qed.

Lemma hex_digit_code n :
  (n < 16)%N -> N_of_ascii (hex_digit n) = (if (n <? 10)%N then 48 + n else 87 + n)%N.
Proof.
  intros H. unfold hex_digit. apply N_ascii_embedding.
  destruct (N.ltb_spec n 10); lia.
Qed.

Lemma hex_value_digit n : (n < 16)%N -> hex_value (hex_digit n) = Some n.
Proof.
  intros H. unfold hex_value. rewrite hex_digit_code by assumption.
  destruct (N.ltb_spec n 10) as [Hlt|Hge].
  - replace ((48 <=? 48 + n) && (48 + n <=? 57))%N with true
      by (symmetry; apply andb_true_intro; split; apply N.leb_le; lia).
    f_equal. lia.
  - replace ((48 <=? 87 + n) && (87 + n <=? 57))%N with false
      by (symmetry; apply andb_false_intro2; apply N.leb_gt; lia).
    replace ((97 <=? 87 + n) && (87 + n <=? 102))%N with true
      by (symmetry; apply andb_true_intro; split; apply N.leb_le; lia).
    f_equal. lia.
Qed.

Lemma hex_digit_not_dash n : (n < 16)%N -> Ascii.eqb (hex_digit n) "-"%char = false.
Proof.
  intros H. apply Ascii.eqb_neq. intros Heq.
  apply (f_equal N_of_ascii) in Heq. rewrite hex_digit_code in Heq by assumption.
  change (N_of_ascii "-") with 45%N in Heq.
  destruct (N.ltb_spec n 10); lia.
Qed.

Lemma hex_decode_encode k : forall x acc,
  hex_decode_from acc (hex_encode k x) = Some (acc * 16 ^ N.of_nat k + x mod 16 ^ N.of_nat k)%N.
Proof.
  induction k as [|k IH]; intros x acc.
  - cbn. f_equal. rewrite N.mod_1_r. lia.
  - cbn [hex_encode hex_decode_from].
    rewrite hex_value_digit by (apply N.mod_lt; lia).
    rewrite IH. f_equal.
    rewrite Nat2N.inj_succ, N.pow_succ_r'.
    rewrite (N.mul_comm 16 (16 ^ N.of_nat k)).
    rewrite (N.Div0.mod_mul_r x (16 ^ N.of_nat k) 16). lia.
Qed.

Lemma hex_encode_length k x : String.length (hex_encode k x) = k.
Proof. induction k; cbn; congruence. Qed.

Lemma cut_dash_hex k x rest :
  cut_dash (hex_encode k x ++ "-" ++ rest) = (hex_encode k x, rest).
Proof.
  induction k as [|k IH]; [reflexivity|].
  change (hex_encode (S k) x) with
    (String (hex_digit ((x / 16 ^ N.of_nat k) mod 16)%N) (hex_encode k x)).
  change (cut_dash (String ?c ?s ++ ?t)) with
    (if Ascii.eqb c "-"%char then ("", s ++ t)
     else let (part, rest) := cut_dash (s ++ t) in (String c part, rest)).
  rewrite hex_digit_not_dash by (apply N.mod_lt; lia). now rewrite IH.
Qed.

Lemma cut_dash_hex_end k x :
  cut_dash (hex_encode k x) = (hex_encode k x, "").
Proof.
  induction k as [|k IH]; [reflexivity|].
  change (hex_encode (S k) x) with
    (String (hex_digit ((x / 16 ^ N.of_nat k) mod 16)%N) (hex_encode k x)).
  change (cut_dash (String ?c ?s)) with
    (if Ascii.eqb c "-"%char then ("", s)
     else let (part, rest) := cut_dash s in (String c part, rest)).
  rewrite hex_digit_not_dash by (apply N.mod_lt; lia). now rewrite IH.
Qed.

Lemma extractPart_hex k x rest :
  extractPart (hex_encode k x ++ "-" ++ rest) k = Some ((x mod 16 ^ N.of_nat k)%N, rest).
Proof.
  unfold extractPart. rewrite cut_dash_hex, hex_encode_length, Nat.eqb_refl. cbn [negb].
  unfold hex_decode. rewrite hex_decode_encode. do 2 f_equal. 
Qed.

Lemma extractPart_hex_end k x :
  extractPart (hex_encode k x) k = Some ((x mod 16 ^ N.of_nat k)%N, "").
Proof.
  unfold extractPart. rewrite cut_dash_hex_end, hex_encode_length, Nat.eqb_refl. cbn [negb].
  unfold hex_decode. rewrite hex_decode_encode. do 2 f_equal.
Qed.

Lemma fits_bounds sc :
  fits sc = true -> (TraceID sc < 2 ^ 128)%N /\ (SpanID sc < 2 ^ 64)%N.
Proof.
  unfold fits. intros H. apply andb_prop in H as [H1 H2].
  split; now apply N.ltb_lt.
Qed.

Lemma IsValid_ids sc :
  IsValid sc = true -> TraceID sc <> 0%N /\ SpanID sc <> 0%N.
Proof.
  unfold IsValid. intros H. apply andb_prop in H as [H1 H2].
  apply negb_true_iff in H1, H2. split; now apply N.eqb_neq.
Qed.

Lemma sampled_bit n : (N.land n FlagsSampled < 2)%N.
Proof.
  unfold FlagsSampled. change 1%N with (N.ones 1). rewrite N.land_ones.
  apply N.mod_lt. discriminate.
Qed.

Lemma TraceContext_extract_traceparent get sc :
  IsValid sc = true -> fits sc = true ->
  get traceparentHeader = traceparent_of sc ->
  TraceContext_extract get =
    mkSpanContext (TraceID sc) (SpanID sc) (N.land (TraceFlags sc) FlagsSampled)
      (get tracestateHeader) true.
Proof.
  intros Hvalid Hfits Hget.
  destruct (fits_bounds _ Hfits) as [Ht Hs].
  pose proof (sampled_bit (TraceFlags sc)) as Hf.
  unfold TraceContext_extract. rewrite Hget. unfold traceparent_of. cbv zeta.
  destruct (String.eqb _ "") eqn:E; [apply String.eqb_eq in E; discriminate E|].
  change "00" with (hex_encode 2 0).
  rewrite extractPart_hex. cbn [N.ltb N.compare maxVersion N.modulo].
  change (maxVersion <? 0 mod 16 ^ N.of_nat 2)%N with false. cbv iota.
  rewrite extractPart_hex, extractPart_hex, extractPart_hex_end.
  change (16 ^ N.of_nat 32)%N with (2 ^ 128)%N.
  change (16 ^ N.of_nat 16)%N with (2 ^ 64)%N.
  change (16 ^ N.of_nat 2)%N with 256%N.
  rewrite (N.mod_small (TraceID sc)) by assumption.
  rewrite (N.mod_small (SpanID sc)) by assumption.
  rewrite (N.mod_small (N.land _ _)) by lia.
  change (0 mod 256 =? 0)%N with true. cbn [andb orb negb String.eqb].
  replace (2 <? N.land (TraceFlags sc) FlagsSampled)%N with false
    by (symmetry; apply N.ltb_ge; lia).
  replace (N.land (N.land (TraceFlags sc) FlagsSampled) FlagsSampled)
    with (N.land (TraceFlags sc) FlagsSampled)
    by (rewrite <- N.land_assoc; now rewrite N.land_diag).
  unfold IsValid in *. cbn [TraceID SpanID]. now rewrite Hvalid.
Qed.

Lemma TraceContext_last_write ctx :
  IsValid (SpanContextFromContext ctx) = true ->
  last_write traceparentHeader (Inject TraceContext ctx)
    = Some (traceparent_of (SpanContextFromContext ctx)).
Proof.
  intros Hvalid. cbn [Inject TraceContext]. unfold TraceContext_Inject.
  rewrite Hvalid. cbn [negb].
  destruct (String.eqb (TraceState _) ""); reflexivity.
Qed.

Lemma TraceContext_keeps_trace_identity : keeps_trace_identity TraceContext.
Proof.
  intros ctx base get Hvalid Hfits Hget.
  pose proof (Hget _ _ (TraceContext_last_write ctx Hvalid)) as Htp.
  cbn [Extract TraceContext]. unfold TraceContext_Extract.
  rewrite (TraceContext_extract_traceparent get _ Hvalid Hfits Htp).
  unfold IsValid in *. cbn [TraceID SpanID]. rewrite Hvalid. cbn [negb].
  split; reflexivity.
Qed.

Lemma last_write_app k l1 l2 :
  last_write k (l1 ++ l2)%list =
    match last_write k l2 with
    | Some v => Some v
    | None => last_write k l1
    end.
Proof.
  induction l1 as [|[k' v'] l1 IH]; simpl.
  - now destruct (last_write k l2).
  - rewrite IH. now destruct (last_write k l2).
Qed.

(** The trace-context propagator composed with one that writes no
    [traceparent] and leaves the span context of a context alone (as the
    baggage propagator does) still keeps trace identity. *)
Lemma Composite_keeps_trace_identity Q :
  (forall ctx, last_write traceparentHeader (Inject Q ctx) = None) ->
  (forall ctx get,
      SpanContextFromContext (Extract Q ctx get) = SpanContextFromContext ctx) ->
  keeps_trace_identity (Composite [TraceContext; Q]).
Proof.
  intros Hwrites Hleaves ctx base get Hvalid Hfits Hget.
  assert (Htp : get traceparentHeader = traceparent_of (SpanContextFromContext ctx)).
  { apply Hget. cbn [Inject Composite flat_map].
    rewrite last_write_app, last_write_app. cbn [last_write].
    rewrite Hwrites. now apply TraceContext_last_write. }
  cbn [Extract Composite fold_left]. rewrite Hleaves.
  cbn [Extract TraceContext]. unfold TraceContext_Extract.
  rewrite (TraceContext_extract_traceparent get _ Hvalid Hfits Htp).
  unfold IsValid in *. cbn [TraceID SpanID]. rewrite Hvalid. cbn [negb].
  split; reflexivity.
Qed.

Lemma header_carrier_round_trip P :
  keeps_trace_identity P ->
  forall (ctx base : Context) (msg : Nats.Msg),
    IsValid (SpanContextFromContext ctx) = true ->
    fits (SpanContextFromContext ctx) = true ->
    let sent := InjectNATSWithPropagator ctx msg P in
    let out := ExtractNATSWithPropagator base (Nats.msg_Header sent) P in
    TraceID (SpanContextFromContext out) = TraceID (SpanContextFromContext ctx) /\
    SpanID (SpanContextFromContext out) = SpanID (SpanContextFromContext ctx).
Proof.
  intros HP ctx base msg Hvalid Hfits. cbn.
  apply HP; try assumption.
  intros k v Hk. unfold inject_into. now apply Get_last_write.
Qed.



(** With the W3C propagator registered, for every message. *)
Corollary header_round_trip_TraceContext g ctx base msg :
  otel_TextMapPropagator g = TraceContext ->
  IsValid (SpanContextFromContext ctx) = true ->
  fits (SpanContextFromContext ctx) = true ->
  let out := ExtractNATS g base (Nats.msg_Header (InjectNATS g ctx msg)) in
  TraceID (SpanContextFromContext out) = TraceID (SpanContextFromContext ctx) /\
  SpanID (SpanContextFromContext out) = SpanID (SpanContextFromContext ctx).
Proof.
  intros Hg Hvalid Hfits. unfold InjectNATS, ExtractNATS. rewrite Hg.
  apply header_carrier_round_trip; try assumption.
  apply TraceContext_keeps_trace_identity.
Qed.


(** The same with the propagator that does nothing, which the API has
    registered as long as the application registers none. *)
Example round_trip_needs_propagator :
  let g := mkGlobals (mkTracerProvider 1) NoopPropagator None in
  let sent := InjectNATS g Sample.parent_ctx Sample.nil_header_msg in
  Nats.msg_Header sent = Some make_Header /\
  TraceID (SpanContextFromContext (ExtractNATS g Background (Nats.msg_Header sent))) = 0%N.
Proof. split; reflexivity. Qed.

(** The same for a message whose header map is nil, which injection
    initialises. *)
Lemma header_round_trip_nil_header g ctx base subject data :
  keeps_trace_identity (otel_TextMapPropagator g) ->
  IsValid (SpanContextFromContext ctx) = true ->
  fits (SpanContextFromContext ctx) = true ->
  let sent := InjectNATS g ctx (Nats.mkMsg subject data None) in
  let out := ExtractNATS g base (Nats.msg_Header sent) in
  Nats.msg_Header sent <> None /\
  TraceID (SpanContextFromContext out) = TraceID (SpanContextFromContext ctx) /\
  SpanID (SpanContextFromContext out) = SpanID (SpanContextFromContext ctx).
Proof.
  intros HP Hvalid Hfits. split; [discriminate|].
  unfold InjectNATS, ExtractNATS. now apply header_carrier_round_trip.
Qed.

(** Extraction from a nil header map gives the context back. *)
Lemma ExtractNATS_nil g ctx : ExtractNATS g ctx None = ctx.
Proof. reflexivity. Qed.

(** The header test of the package, replayed. *)
Example extract_valid_header :
  let header := headerCarrier_Set make_Header "traceparent"
                  "00-0af7651916cd43dd8448eb211c80319c-b7ad6b7169203331-01" in
  let sc := SpanContextFromContext (ExtractNATS Sample.globals Background (Some header)) in
  IsValid sc = true /\
  hex_encode 32 (TraceID sc) = "0af7651916cd43dd8448eb211c80319c".
Proof. split; vm_compute; reflexivity. Qed.

(** * Further properties *)

(** ** The attribute builders, for every input *)

(** X1. For every subject, message id and body size, [publishAttributes]
    binds the four fixed keys (the destination to the subject), binds the
    message-id key exactly when the id is not empty and the body-size key
    exactly when the size is positive, binds no key twice and stays within
    the six slots allocated for it. *)
Theorem publishAttributes_keys :
  forall (subject msgID : string) (bodySize : Z),
    let attrs := publishAttributes subject msgID bodySize in
    Attribute.lookup attrMessagingSystem attrs = Some (Attribute.StringValue "nats") /\
    Attribute.lookup attrMessagingOperationName attrs = Some (Attribute.StringValue "publish") /\
    Attribute.lookup attrMessagingOperationType attrs = Some (Attribute.StringValue "send") /\
    Attribute.lookup attrMessagingDestinationName attrs = Some (Attribute.StringValue subject) /\
    Attribute.lookup attrMessagingMessageID attrs
      = (if String.eqb msgID "" then None else Some (Attribute.StringValue msgID)) /\
    Attribute.lookup attrMessagingMessageBodySize attrs
      = (if 0 <? bodySize then Some (Attribute.IntValue bodySize) else None) /\
    (Attribute.has_key attrMessagingMessageID attrs = true <-> msgID <> "") /\
    (Attribute.has_key attrMessagingMessageBodySize attrs = true <-> 0 < bodySize) /\
    distinct_keys attrs /\
    (List.length attrs <= 6)%nat.
Proof.
  intros subject msgID bodySize attrs. subst attrs.
  unfold publishAttributes, distinct_keys.
  destruct (String.eqb_spec msgID ""); destruct (Z.ltb_spec 0 bodySize); cbn;
    repeat split; try reflexivity; try congruence; try lia; try discriminate;
    try (apply (bool_decide_unpack _); vm_compute; reflexivity).
Qed.

(** X2. For every stream, consumer name and body size, [receiveAttributes]
    binds the four fixed keys (the stream under [nats.stream], not under
    the destination key), binds the consumer-group key exactly when the
    name is not empty and the body-size key exactly when the size is
    positive, binds no key twice and stays within its six slots. *)
Theorem receiveAttributes_keys :
  forall (stream consumerName : string) (bodySize : Z),
    let attrs := receiveAttributes stream consumerName bodySize in
    Attribute.lookup attrMessagingSystem attrs = Some (Attribute.StringValue "nats") /\
    Attribute.lookup attrMessagingOperationName attrs = Some (Attribute.StringValue "receive") /\
    Attribute.lookup attrMessagingOperationType attrs = Some (Attribute.StringValue "receive") /\
    Attribute.lookup attrNATSStream attrs = Some (Attribute.StringValue stream) /\
    Attribute.has_key attrMessagingDestinationName attrs = false /\
    Attribute.lookup attrMessagingConsumerGroup attrs
      = (if String.eqb consumerName "" then None
         else Some (Attribute.StringValue consumerName)) /\
    Attribute.lookup attrMessagingMessageBodySize attrs
      = (if 0 <? bodySize then Some (Attribute.IntValue bodySize) else None) /\
    distinct_keys attrs /\
    (List.length attrs <= 6)%nat.
Proof.
  intros stream consumerName bodySize attrs. subst attrs.
  unfold receiveAttributes, distinct_keys.
  destruct (String.eqb_spec consumerName ""); destruct (Z.ltb_spec 0 bodySize); cbn;
    repeat split; try reflexivity; try lia;
    try (apply (bool_decide_unpack _); vm_compute; reflexivity).
Qed.

(** X3. For every input, [processAttributes] binds the four fixed keys and
    each of the destination, consumer-group, message-id and body-size keys
    exactly when its value is not empty (positive, for the size), binds no
    key twice and stays within its eight slots. *)
Theorem processAttributes_keys :
  forall (stream consumerName subject msgID : string) (bodySize : Z),
    let attrs := processAttributes stream consumerName subject msgID bodySize in
    Attribute.lookup attrMessagingSystem attrs = Some (Attribute.StringValue "nats") /\
    Attribute.lookup attrMessagingOperationName attrs = Some (Attribute.StringValue "process") /\
    Attribute.lookup attrMessagingOperationType attrs = Some (Attribute.StringValue "process") /\
    Attribute.lookup attrNATSStream attrs = Some (Attribute.StringValue stream) /\
    Attribute.lookup attrMessagingDestinationName attrs
      = (if String.eqb subject "" then None else Some (Attribute.StringValue subject)) /\
    Attribute.lookup attrMessagingConsumerGroup attrs
      = (if String.eqb consumerName "" then None
         else Some (Attribute.StringValue consumerName)) /\
    Attribute.lookup attrMessagingMessageID attrs
      = (if String.eqb msgID "" then None else Some (Attribute.StringValue msgID)) /\
    Attribute.lookup attrMessagingMessageBodySize attrs
      = (if 0 <? bodySize then Some (Attribute.IntValue bodySize) else None) /\
    distinct_keys attrs /\
    (List.length attrs <= 8)%nat.
Proof.
  intros stream consumerName subject msgID bodySize attrs. subst attrs.
  unfold processAttributes, distinct_keys.
  destruct (String.eqb_spec subject ""); destruct (String.eqb_spec consumerName "");
    destruct (String.eqb_spec msgID ""); destruct (Z.ltb_spec 0 bodySize); cbn;
    repeat split; try reflexivity; try lia;
    try (apply (bool_decide_unpack _); vm_compute; reflexivity).
Qed.

(** ** Options: the last one of a kind wins *)

Lemma last_setting_snoc {A} (pick : OptionSpec -> option A) specs spec :
  last_setting pick (specs ++ [spec])%list =
    match pick spec with
    | Some v => Some v
    | None => last_setting pick specs
    end.
Proof.
  induction specs as [|s rest IH]; simpl.
  - now destruct (pick spec).
  - rewrite IH. now destruct (pick spec).
Qed.

(** X4. For every list of options built with the five constructors, each
    field of the resulting options is what the last option for that field
    set, and the default (the instrumentation name, no propagator, both
    toggles on, no stream) when the list has no option for it. *)
Theorem applyOptions_last_wins :
  forall (specs : list OptionSpec),
    let o := applyOptions (map option_of specs) in
    tracerName o = setting_or instrumentationName (last_setting pick_tracerName specs) /\
    prop o = last_setting pick_prop specs /\
    processSpans o = setting_or true (last_setting pick_processSpans specs) /\
    asyncSpans o = setting_or true (last_setting pick_asyncSpans specs) /\
    stream o = setting_or "" (last_setting pick_stream specs).
Proof.
  intros specs. cbv zeta.
  induction specs as [|spec specs IH] using rev_ind; [repeat split|].
  destruct IH as (Hn & Hp & Hps & Has & Hs).
  rewrite map_app. cbn [map].
  change (applyOptions (map option_of specs ++ [option_of spec])%list)
    with (applyOptions (append (map option_of specs) [option_of spec])).
  rewrite applyOptions_snoc, !last_setting_snoc.
  destruct spec; cbn; repeat split; assumption.
Qed.

(** ** The header carrier as a map *)

(** X5. Reading a key after [Set] gives the value set for that key and
    what was there before for every other key (keys are compared exactly,
    case included); [Set] replaces every earlier value of the key by the
    one value; a key that is absent reads as the empty string, and a key
    with several values reads as the first. *)
Theorem headerCarrier_laws :
  forall (c : headerCarrier) (k k' v v' : string) (vs : list string),
    headerCarrier_Get (headerCarrier_Set c k v) k'
      = (if String.eqb k k' then v else headerCarrier_Get c k') /\
    Nats.Header_Values (headerCarrier_Set c k v) k = [v] /\
    headerCarrier_Set (headerCarrier_Set c k v') k v = headerCarrier_Set c k v /\
    headerCarrier_Get make_Header k = "" /\
    headerCarrier_Get (<[k := vs]> c) k = hd "" vs.
Proof.
  intros c k k' v v' vs. split_and!.
  - destruct (String.eqb_spec k k') as [->|Hne].
    + apply headerCarrier_Get_Set_eq.
    + now apply headerCarrier_Get_Set_ne.
  - unfold Nats.Header_Values, headerCarrier_Set, Nats.Header_Set.
    now rewrite lookup_insert_eq.
  - unfold headerCarrier_Set, Nats.Header_Set. apply insert_insert_eq.
  - reflexivity.
  - unfold headerCarrier_Get, Nats.Header_Values. rewrite lookup_insert_eq.
    now destruct vs.
Qed.

(** X6. [Keys] lists exactly the keys present in the header map, each
    once: as many as the map has entries, none for the empty map, and the
    key just set among them. *)
Theorem headerCarrier_Keys_exact :
  forall (c : headerCarrier) (k v : string),
    (k ∈ headerCarrier_Keys c <-> is_Some (c !! k)) /\
    NoDup (headerCarrier_Keys c) /\
    List.length (headerCarrier_Keys c) = size c /\
    k ∈ headerCarrier_Keys (headerCarrier_Set c k v) /\
    headerCarrier_Keys make_Header = [].
Proof.
  intros c k v. unfold headerCarrier_Keys. split_and!; [split|..].
  - intros Hin. apply list_elem_of_fmap in Hin as [[k0 vs] [-> Hin]].
    apply elem_of_map_to_list in Hin. cbn. eauto.
  - intros [vs Hvs]. apply list_elem_of_fmap. exists (k, vs). split; [reflexivity|].
    now apply elem_of_map_to_list.
  - apply NoDup_fst_map_to_list.
  - rewrite length_fmap. apply length_map_to_list.
  - apply list_elem_of_fmap. exists (k, [v]). split; [reflexivity|].
    apply elem_of_map_to_list. unfold headerCarrier_Set, Nats.Header_Set.
    apply lookup_insert_eq.
  - unfold make_Header. now rewrite map_to_list_empty.
Qed.

(** X7. Injection leaves subject and data alone and always leaves a
    non-nil header map; in it every key the propagator wrote reads as the
    last value written, and every other key reads as it did before (as the
    empty string when the map was nil). *)
Theorem injection_keeps_other_headers :
  forall (P : TextMapPropagator) (ctx : Context) (msg : Nats.Msg) (k : string),
    let sent := InjectNATSWithPropagator ctx msg P in
    Nats.msg_Subject sent = Nats.msg_Subject msg /\
    Nats.msg_Data sent = Nats.msg_Data msg /\
    exists h,
      Nats.msg_Header sent = Some h /\
      headerCarrier_Get h k =
        match last_write k (Inject P ctx) with
        | Some v => v
        | None => headerCarrier_Get (default make_Header (Nats.msg_Header msg)) k
        end.
Proof.
  intros P ctx msg k. cbn. split_and!; [reflexivity..|]. eexists. split; [reflexivity|].
  unfold inject_into.
  destruct (last_write k (Inject P ctx)) as [v|] eqn:Hl.
  - now apply Get_last_write.
  - rewrite Get_untouched by assumption. now destruct (Nats.msg_Header msg).
Qed.

(** ** Standalone extraction *)

(** X8. A message delivered with the headers that [InjectNATS] wrote for a
    context with an active span, wrapped by [NewTracedMsg], carries that
    span's trace id and span id in its context, and embeds the message
    itself. *)
Theorem NewTracedMsg_extracts :
  forall (g : Globals) (ctx : Context) (msg : Nats.Msg)
         (md : option Nats.MsgMetadata * option error),
    keeps_trace_identity (otel_TextMapPropagator g) ->
    IsValid (SpanContextFromContext ctx) = true ->
    fits (SpanContextFromContext ctx) = true ->
    let inbound := delivered (InjectNATS g ctx msg) md in
    let tm := NewTracedMsg g (Some inbound) in
    tm_Msg tm = Some inbound /\
    TraceID (SpanContextFromContext (TracedMsg_Context tm))
      = TraceID (SpanContextFromContext ctx) /\
    SpanID (SpanContextFromContext (TracedMsg_Context tm))
      = SpanID (SpanContextFromContext ctx).
Proof.
  intros g ctx msg md HP Hvalid Hfits inbound tm.
  split; [reflexivity|].
  exact (header_carrier_round_trip _ HP ctx Background msg Hvalid Hfits).
Qed.

Lemma NewTracedMsg_extracts_witness :
  let inbound := delivered (InjectNATS Sample.globals Sample.parent_ctx Sample.nil_header_msg)
                   (None, None) in
  let tm := NewTracedMsg Sample.globals (Some inbound) in
  tm_Msg tm = Some inbound /\
  TraceID (SpanContextFromContext (TracedMsg_Context tm)) = TraceID Sample.parent /\
  SpanID (SpanContextFromContext (TracedMsg_Context tm)) = SpanID Sample.parent.
Proof.
  exact (NewTracedMsg_extracts Sample.globals Sample.parent_ctx Sample.nil_header_msg
           (None, None) TraceContext_keeps_trace_identity eq_refl eq_refl).
Defined.

(** A nil message, a message without headers and a traced message whose
    context field is nil all give the background context. *)
Lemma NewTracedMsg_without_headers :
  forall (g : Globals) (prop : option TextMapPropagator) (subject : string) (data : bytes)
         (md : option Nats.MsgMetadata * option error),
    TracedMsg_Context (NewTracedMsgWithPropagator g None prop) = Background /\
    tm_Msg (NewTracedMsgWithPropagator g None prop) = None /\
    TracedMsg_Context
      (NewTracedMsgWithPropagator g (Some (Nats.mkJMsg subject data None md)) prop)
      = Background /\
    TracedMsg_Context (mkTracedMsg None None) = Background.
Proof. intros. split_and!; reflexivity. Qed.

(** X9. [StartProcessSpanWithTracer] opens one consumer span whose parent is
    the span context of the message's context (handing down its trace id
    when valid), returns a context holding the new span, and leaves the
    span open and unset.  The returned function ends it: with nil, once
    and with nothing recorded; with an error, once with the error recorded
    and error status; and a later call with nil ends it again but leaves
    the recorded error and status in place. *)
Theorem StartProcessSpan_lifecycle :
  forall (g : Globals) (m : TracedMsg) (tp : option TracerProvider) (opts : list Option)
         (w : World) (err : error),
    let r := StartProcessSpanWithTracer g m tp opts w in
    let ctx := fst (fst r) in
    let finish := snd (fst r) in
    exists sd,
      opened w (snd r) sd /\
      sd_kind sd = SpanKindConsumer /\
      sd_parent sd = SpanContextFromContext (TracedMsg_Context m) /\
      (if IsValid (sd_parent sd)
       then TraceID (sd_spanContext sd) = TraceID (sd_parent sd)
       else True) /\
      SpanContextFromContext ctx = sd_spanContext sd /\
      sd_status sd = (Unset, "") /\ sd_events sd = [] /\ sd_ended sd = 0%nat /\
      spans (snd (finish None (snd r))) =
        append (spans w)
          [mkSpanData (sd_tracer sd) (sd_name sd) (sd_kind sd) (sd_parent sd)
             (sd_spanContext sd) (sd_attributes sd) (Unset, "") [] 1] /\
      spans (snd (finish (Some err) (snd r))) =
        append (spans w)
          [mkSpanData (sd_tracer sd) (sd_name sd) (sd_kind sd) (sd_parent sd)
             (sd_spanContext sd) (sd_attributes sd) (Trace.Error, Go.Error err)
             [mkEvent "exception" (Go.Error err)] 1] /\
      spans (snd (finish None (snd (finish (Some err) (snd r))))) =
        append (spans w)
          [mkSpanData (sd_tracer sd) (sd_name sd) (sd_kind sd) (sd_parent sd)
             (sd_spanContext sd) (sd_attributes sd) (Trace.Error, Go.Error err)
             [mkEvent "exception" (Go.Error err)] 2].
Proof.
  intros g m tp opts w err. cbv zeta.
  unfold StartProcessSpanWithTracer, opened.
  destruct (tm_Msg m) as [msg|]; [destruct (Nats.Metadata msg) as [[md|] [e|]]|];
    unfold endFunc; run_go; eexists;
    (split; [reflexivity|]); split_and!;
    cbn [sd_parent sd_spanContext sd_kind sd_status sd_events sd_ended TraceID];
    first [ reflexivity
          | destruct (IsValid _); [reflexivity|exact I]
          | world_simpl; reflexivity ].
Qed.

(** ** What each wrapped call does to the world *)

Lemma Publish_run p ctx subject data opts w :
  let ctx' := ContextWithSpanContext ctx
                (next_span_context w (SpanContextFromContext ctx)) in
  let msg := Nats.mkMsg subject data (Some (injected (pub_prop p) ctx' None)) in
  let ans := js_PublishMsg (pub_js p) ctx' msg opts in
  Publish p ctx subject data opts w =
    (match snd ans with
     | Some e => (None, Some e)
     | None => (fst ans, None)
     end,
     mkWorld
       (append (spans w)
          [mkSpanData (pub_tracer p) (opTypePublish ++ " " ++ subject) SpanKindProducer
             (SpanContextFromContext ctx)
             (next_span_context w (SpanContextFromContext ctx))
             (match ans with
              | (Some a, None) =>
                  append (publishAttributes subject "" (len data))
                    (publishAttributes subject (FormatUint (Nats.Sequence a)) 0)
              | _ => publishAttributes subject "" (len data)
              end)
             (status_after (snd ans)) (events_after (snd ans)) 1])
       (S (injections w))
       (append (js_calls w) [CallPublishMsg ctx' msg])).
Proof.
  cbv zeta. unfold injected, next_span_context. run_go. cbn [default].
  destruct (js_PublishMsg _ _ _ _) as [[a|] [e|]]; world_simpl; reflexivity.
Qed.

Lemma PublishMsg_run p ctx msg opts w :
  let ctx' := ContextWithSpanContext ctx
                (next_span_context w (SpanContextFromContext ctx)) in
  let sent := Nats.mkMsg (Nats.msg_Subject msg) (Nats.msg_Data msg)
                (Some (injected (pub_prop p) ctx' (Nats.msg_Header msg))) in
  let ans := js_PublishMsg (pub_js p) ctx' sent opts in
  PublishMsg p ctx msg opts w =
    ((match snd ans with
      | Some e => (None, Some e)
      | None => (fst ans, None)
      end, sent),
     mkWorld
       (append (spans w)
          [mkSpanData (pub_tracer p) (opTypePublish ++ " " ++ Nats.msg_Subject msg)
             SpanKindProducer (SpanContextFromContext ctx)
             (next_span_context w (SpanContextFromContext ctx))
             (match ans with
              | (Some a, None) =>
                  append (publishAttributes (Nats.msg_Subject msg) ""
                            (len (Nats.msg_Data msg)))
                    (publishAttributes (Nats.msg_Subject msg)
                       (FormatUint (Nats.Sequence a)) 0)
              | _ => publishAttributes (Nats.msg_Subject msg) "" (len (Nats.msg_Data msg))
              end)
             (status_after (snd ans)) (events_after (snd ans)) 1])
       (S (injections w))
       (append (js_calls w) [CallPublishMsg ctx' sent])).
Proof.
  cbv zeta. unfold injected, next_span_context. run_go.
  destruct (Nats.msg_Header msg); cbn [default];
    destruct (js_PublishMsg _ _ _ _) as [[a|] [e|]]; world_simpl; reflexivity.
Qed.

Lemma PublishAsync_run p subject data opts w :
  asyncSpans (pub_opts p) = true ->
  let ctx' := ContextWithSpanContext Background (next_span_context w emptySpanContext) in
  let msg := Nats.mkMsg subject data (Some (injected (pub_prop p) ctx' None)) in
  let ans := js_PublishMsgAsync (pub_js p) msg opts in
  PublishAsync p subject data opts w =
    (match snd ans with
     | Some e => (None, Some e)
     | None => (fst ans, None)
     end,
     mkWorld
       (append (spans w)
          [mkSpanData (pub_tracer p) (opTypePublish ++ " " ++ subject) SpanKindProducer
             emptySpanContext (next_span_context w emptySpanContext)
             (publishAttributes subject "" (len data))
             (status_after (snd ans)) (events_after (snd ans)) 1])
       (S (injections w))
       (append (js_calls w) [CallPublishMsgAsync msg])).
Proof.
  intros Hon. cbv zeta. unfold injected, next_span_context, PublishAsync.
  rewrite Hon. cbn [negb]. run_go. cbn [default].
  destruct (js_PublishMsgAsync _ _ _) as [f [e|]]; world_simpl; reflexivity.
Qed.

Lemma PublishAsyncMsg_run p msg opts w :
  asyncSpans (pub_opts p) = true ->
  let ctx' := ContextWithSpanContext Background (next_span_context w emptySpanContext) in
  let sent := Nats.mkMsg (Nats.msg_Subject msg) (Nats.msg_Data msg)
                (Some (injected (pub_prop p) ctx' (Nats.msg_Header msg))) in
  let ans := js_PublishMsgAsync (pub_js p) sent opts in
  PublishAsyncMsg p msg opts w =
    ((match snd ans with
      | Some e => (None, Some e)
      | None => (fst ans, None)
      end, sent),
     mkWorld
       (append (spans w)
          [mkSpanData (pub_tracer p) (opTypePublish ++ " " ++ Nats.msg_Subject msg)
             SpanKindProducer emptySpanContext (next_span_context w emptySpanContext)
             (publishAttributes (Nats.msg_Subject msg) "" (len (Nats.msg_Data msg)))
             (status_after (snd ans)) (events_after (snd ans)) 1])
       (S (injections w))
       (append (js_calls w) [CallPublishMsgAsync sent])).
Proof.
  intros Hon. cbv zeta. unfold injected, next_span_context, PublishAsyncMsg.
  rewrite Hon. cbn [negb]. run_go.
  destruct (Nats.msg_Header msg); cbn [default];
    destruct (js_PublishMsgAsync _ _ _) as [f [e|]]; world_simpl; reflexivity.
Qed.

Lemma Fetch_run tc n opts w :
  let ans := c_Fetch (tc_consumer tc) n opts in
  Fetch tc n opts w =
    (match snd ans with
     | Some e => (None, Some e)
     | None =>
         (Some (wrapBatch tc
                  (ContextWithSpanContext Background (next_span_context w emptySpanContext))
                  (fst ans)), None)
     end,
     with_spans w (append (spans w) [receive_span tc w (snd ans)])).
Proof.
  cbv zeta. unfold receive_span, next_span_context. run_go.
  destruct (c_Fetch _ _ _) as [mb [e|]]; world_simpl; reflexivity.
Qed.

Lemma FetchBytes_run tc n opts w :
  let ans := c_FetchBytes (tc_consumer tc) n opts in
  FetchBytes tc n opts w =
    (match snd ans with
     | Some e => (None, Some e)
     | None =>
         (Some (wrapBatch tc
                  (ContextWithSpanContext Background (next_span_context w emptySpanContext))
                  (fst ans)), None)
     end,
     with_spans w (append (spans w) [receive_span tc w (snd ans)])).
Proof.
  cbv zeta. unfold receive_span, next_span_context. run_go.
  destruct (c_FetchBytes _ _ _) as [mb [e|]]; world_simpl; reflexivity.
Qed.

Lemma FetchNoWait_run tc n w :
  let ans := c_FetchNoWait (tc_consumer tc) n in
  FetchNoWait tc n w =
    (match snd ans with
     | Some e => (None, Some e)
     | None =>
         (Some (wrapBatch tc
                  (ContextWithSpanContext Background (next_span_context w emptySpanContext))
                  (fst ans)), None)
     end,
     with_spans w (append (spans w) [receive_span tc w (snd ans)])).
Proof.
  cbv zeta. unfold receive_span, next_span_context. run_go.
  destruct (c_FetchNoWait _ _) as [mb [e|]]; world_simpl; reflexivity.
Qed.

Lemma Next_run tc opts w :
  let ans := c_Next (tc_consumer tc) opts in
  Next tc opts w =
    (match snd ans with
     | Some e => (None, Some e)
     | None =>
         (Some (mkTracedMsg (fst ans) (Some (extractContext tc Background (fst ans)))), None)
     end,
     with_spans w (append (spans w) [receive_span tc w (snd ans)])).
Proof.
  cbv zeta. unfold receive_span, next_span_context. run_go.
  destruct (c_Next _ _) as [mb [e|]]; world_simpl; reflexivity.
Qed.

(** ** One span per traced call *)

Ltac by_run H ans :=
  cbv zeta in H; unfold receive_span, with_spans in H;
  destruct ans as [[?|] [?|]];
  do 2 eexists; rewrite H; reflexivity.

Lemma traced_call_span c w :
  traced c = true ->
  exists t attrs,
    spans (snd (run_call c w)) =
      append (spans w)
        [mkSpanData t (call_span_name c) (call_span_kind c) (call_parent c)
           (next_span_context w (call_parent c)) attrs
           (status_after (snd (fst (run_call c w))))
           (events_after (snd (fst (run_call c w)))) 1].
Proof.
  intros Htr. destruct c; cbn [traced] in Htr; unfold run_call, bind, ret.
  - pose proof (Publish_run p ctx subject data opts w) as H.
    by_run H (js_PublishMsg (pub_js p)
      (ContextWithSpanContext ctx (next_span_context w (SpanContextFromContext ctx)))
      (Nats.mkMsg subject data (Some (injected (pub_prop p)
         (ContextWithSpanContext ctx (next_span_context w (SpanContextFromContext ctx)))
         None))) opts).
  - pose proof (PublishMsg_run p ctx msg opts w) as H.
    by_run H (js_PublishMsg (pub_js p)
      (ContextWithSpanContext ctx (next_span_context w (SpanContextFromContext ctx)))
      (Nats.mkMsg (Nats.msg_Subject msg) (Nats.msg_Data msg)
         (Some (injected (pub_prop p)
            (ContextWithSpanContext ctx (next_span_context w (SpanContextFromContext ctx)))
            (Nats.msg_Header msg)))) opts).
  - pose proof (PublishAsync_run p subject data opts w Htr) as H.
    by_run H (js_PublishMsgAsync (pub_js p)
      (Nats.mkMsg subject data (Some (injected (pub_prop p)
         (ContextWithSpanContext Background (next_span_context w emptySpanContext))
         None))) opts).
  - pose proof (PublishAsyncMsg_run p msg opts w Htr) as H.
    by_run H (js_PublishMsgAsync (pub_js p)
      (Nats.mkMsg (Nats.msg_Subject msg) (Nats.msg_Data msg)
         (Some (injected (pub_prop p)
            (ContextWithSpanContext Background (next_span_context w emptySpanContext))
            (Nats.msg_Header msg)))) opts).
  - pose proof (Fetch_run tc batch opts w) as H.
    by_run H (c_Fetch (tc_consumer tc) batch opts).
  - pose proof (FetchBytes_run tc maxBytes opts w) as H.
    by_run H (c_FetchBytes (tc_consumer tc) maxBytes opts).
  - pose proof (FetchNoWait_run tc batch w) as H.
    by_run H (c_FetchNoWait (tc_consumer tc) batch).
  - pose proof (Next_run tc opts w) as H.
    by_run H (c_Next (tc_consumer tc) opts).
Qed.

(** X10. Every one of the eight wrapped calls that opens a span (all but
    the asynchronous publishes with async spans off) records exactly one
    span, named [publish <subject>] or [receive <stream>], of kind producer
    or client, and ends it exactly once whether the client succeeded or
    failed; its status and events are the error's when the call returned
    an error and unset and empty when it did not.  The other calls record
    no span. *)
Theorem every_span_closed_once :
  forall (c : Call) (w : World),
    let r := run_call c w in
    if traced c then
      exists sd,
        opened w (snd r) sd /\
        sd_name sd = call_span_name c /\
        sd_kind sd = call_span_kind c /\
        sd_ended sd = 1%nat /\
        sd_status sd = status_after (snd (fst r)) /\
        sd_events sd = events_after (snd (fst r))
    else spans (snd r) = spans w.
Proof.
  intros c w. cbv zeta. destruct (traced c) eqn:Htr.
  - destruct (traced_call_span c w Htr) as (t & attrs & H).
    eexists. split; [exact H|]. split_and!; reflexivity.
  - destruct c; cbn [traced] in Htr; try discriminate;
      unfold run_call, PublishAsync, PublishAsyncMsg; rewrite Htr; reflexivity.
Qed.

Lemma next_span_context_valid w parent :
  IsValid (next_span_context w parent) = true.
Proof.
  unfold next_span_context.
  destruct (IsValid parent) eqn:Hp; unfold IsValid in *; cbn [TraceID SpanID] in *.
  - apply andb_prop in Hp as [Ht _]. rewrite Ht. cbn [andb].
    apply negb_true_iff, N.eqb_neq. lia.
  - apply andb_true_intro. split; apply negb_true_iff, N.eqb_neq; lia.
Qed.

Lemma next_span_context_fits w parent :
  has_room w -> fits parent = true -> fits (next_span_context w parent) = true.
Proof.
  unfold has_room, fits, next_span_context. cbn [TraceID SpanID]. intros Hroom Hfits.
  apply andb_prop in Hfits as [Ht _]. apply N.ltb_lt in Ht.
  apply andb_true_intro. split; apply N.ltb_lt; [|assumption].
  destruct (IsValid parent); [assumption|].
  eapply N.lt_trans; [exact Hroom|]. reflexivity.
Qed.

(** X11. The span of a traced call has as parent the span context of the
    context the caller passed ([Publish], [PublishMsg]) and the empty span
    context otherwise (asynchronous publishes, fetches); it is valid and
    local, and under a valid parent it keeps the parent's trace id and
    trace state. *)
Theorem span_parent_linkage :
  forall (c : Call) (w : World),
    traced c = true ->
    exists sd,
      opened w (snd (run_call c w)) sd /\
      sd_parent sd = call_parent c /\
      IsValid (sd_spanContext sd) = true /\
      Remote (sd_spanContext sd) = false /\
      (IsValid (call_parent c) = true ->
       TraceID (sd_spanContext sd) = TraceID (call_parent c) /\
       TraceState (sd_spanContext sd) = TraceState (call_parent c)).
Proof.
  intros c w Htr.
  destruct (traced_call_span c w Htr) as (t & attrs & H).
  eexists. split; [exact H|]. cbn [sd_parent sd_spanContext].
  split; [reflexivity|]. split; [apply next_span_context_valid|].
  split; [reflexivity|].
  intros Hvalid. unfold next_span_context. cbn [TraceID TraceState].
  rewrite Hvalid. split; reflexivity.
Qed.

Lemma span_parent_linkage_witness :
  let c := DoPublish (Sample.publisher_of Sample.acking_js []) Sample.parent_ctx
             "orders.created" Sample.payload [] in
  traced c = true /\
  exists sd,
    opened Sample.busy_world (snd (run_call c Sample.busy_world)) sd /\
    sd_parent sd = Sample.parent /\
    TraceID (sd_spanContext sd) = TraceID Sample.parent.
Proof.
  intros c. split; [reflexivity|].
  destruct (span_parent_linkage c Sample.busy_world eq_refl)
    as (sd & Hopen & Hparent & _ & _ & Htrace).
  exists sd. split; [exact Hopen|]. split; [exact Hparent|].
  exact (proj1 (Htrace eq_refl)).
Defined.

(** ** What reaches the client *)

(** X12. Each publish reaches the client exactly once, whether it is traced
    or not and whether it fails or not, and a fetch never reaches the
    JetStream publishing client; the propagator injects exactly once per
    traced publish and never otherwise.  Earlier calls stay in the log. *)
Theorem one_client_call_per_publish :
  forall (c : Call) (w : World),
    let w' := snd (run_call c w) in
    exists calls,
      js_calls w' = append (js_calls w) calls /\
      List.length calls = (if is_nil (call_publisher c) then 0 else 1)%nat /\
      injections w' =
        (injections w + (if is_nil (call_publisher c) then 0
                         else if traced c then 1 else 0))%nat.
Proof.
  intros c w. cbv zeta.
  destruct c; cbn [call_publisher traced is_nil]; unfold run_call, bind, ret.
  - rewrite Publish_run. cbv zeta. cbn [snd js_calls injections].
    eexists. split; [reflexivity|]. split; [reflexivity|]. lia.
  - rewrite PublishMsg_run. cbv zeta. cbn [snd js_calls injections].
    eexists. split; [reflexivity|]. split; [reflexivity|]. lia.
  - destruct (asyncSpans (pub_opts p)) eqn:Hon.
    + rewrite PublishAsync_run by assumption. cbv zeta. cbn [snd js_calls injections].
      eexists. split; [reflexivity|]. split; [reflexivity|]. lia.
    + unfold PublishAsync. rewrite Hon. cbn.
      eexists. split; [reflexivity|]. split; [reflexivity|]. lia.
  - destruct (asyncSpans (pub_opts p)) eqn:Hon.
    + rewrite PublishAsyncMsg_run by assumption. cbv zeta. cbn [snd js_calls injections].
      eexists. split; [reflexivity|]. split; [reflexivity|]. lia.
    + unfold PublishAsyncMsg. rewrite Hon. cbn.
      eexists. split; [reflexivity|]. split; [reflexivity|]. lia.
  - rewrite Fetch_run. cbv zeta. cbn. exists []. unfold append.
    rewrite app_nil_r. split_and!; [reflexivity..|lia].
  - rewrite FetchBytes_run. cbv zeta. cbn. exists []. unfold append.
    rewrite app_nil_r. split_and!; [reflexivity..|lia].
  - rewrite FetchNoWait_run. cbv zeta. cbn. exists []. unfold append.
    rewrite app_nil_r. split_and!; [reflexivity..|lia].
  - rewrite Next_run. cbv zeta. cbn. exists []. unfold append.
    rewrite app_nil_r. split_and!; [reflexivity..|lia].
Qed.

Lemma injected_round_trip P ctx header base :
  keeps_trace_identity P ->
  IsValid (SpanContextFromContext ctx) = true ->
  fits (SpanContextFromContext ctx) = true ->
  TraceID (SpanContextFromContext
             (ExtractNATSWithPropagator base (Some (injected P ctx header)) P))
    = TraceID (SpanContextFromContext ctx) /\
  SpanID (SpanContextFromContext
            (ExtractNATSWithPropagator base (Some (injected P ctx header)) P))
    = SpanID (SpanContextFromContext ctx).
Proof.
  intros HP Hvalid Hfits. cbn.
  apply HP; try assumption.
  intros k v Hk. unfold injected, inject_into. now apply Get_last_write.
Qed.

(** X13. For a traced publish through a propagator that keeps trace
    identity, the message handed to the client carries the producer span
    itself: extracting from its headers gives the trace id and the span id
    of the span the publish opened (not those of the caller's span). *)
Theorem published_headers_carry_producer_span :
  forall (c : Call) (p : Publisher) (w : World) (base : Context),
    call_publisher c = Some p ->
    traced c = true ->
    keeps_trace_identity (pub_prop p) ->
    fits (call_parent c) = true ->
    has_room w ->
    exists sd msg,
      opened w (snd (run_call c w)) sd /\
      sd_kind sd = SpanKindProducer /\
      sent_message (snd (run_call c w)) = Some msg /\
      TraceID (SpanContextFromContext
                 (ExtractNATSWithPropagator base (Nats.msg_Header msg) (pub_prop p)))
        = TraceID (sd_spanContext sd) /\
      SpanID (SpanContextFromContext
                (ExtractNATSWithPropagator base (Nats.msg_Header msg) (pub_prop p)))
        = SpanID (sd_spanContext sd).
Proof.
  intros c p w base Hp Htr HP Hfits Hroom.
  destruct (traced_call_span c w Htr) as (t & attrs & H).
  assert (Hsent : exists header,
             sent_message (snd (run_call c w)) =
               Some (Nats.mkMsg
                       (match c with
                        | DoPublish _ _ s _ _ | DoPublishAsync _ s _ _ => s
                        | DoPublishMsg _ _ m _ | DoPublishAsyncMsg _ m _ => Nats.msg_Subject m
                        | _ => ""
                        end)
                       (match c with
                        | DoPublish _ _ _ d _ | DoPublishAsync _ _ d _ => d
                        | DoPublishMsg _ _ m _ | DoPublishAsyncMsg _ m _ => Nats.msg_Data m
                        | _ => []
                        end)
                       (Some (injected (pub_prop p)
                                (ContextWithSpanContext
                                   (match c with
                                    | DoPublish _ ctx _ _ _ | DoPublishMsg _ ctx _ _ => ctx
                                    | _ => Background
                                    end)
                                   (next_span_context w (call_parent c))) header)))).
  { destruct c; cbn [call_publisher traced] in Hp, Htr; inversion Hp; subst;
      unfold run_call, bind, ret, sent_message.
    - rewrite Publish_run. cbv zeta. cbn [snd js_calls]. rewrite last_append.
      eexists. reflexivity.
    - rewrite PublishMsg_run. cbv zeta. cbn [snd js_calls]. rewrite last_append.
      eexists. reflexivity.
    - rewrite PublishAsync_run by assumption. cbv zeta. cbn [snd js_calls].
      rewrite last_append. eexists. reflexivity.
    - rewrite PublishAsyncMsg_run by assumption. cbv zeta. cbn [snd js_calls].
      rewrite last_append. eexists. reflexivity. }
  destruct Hsent as [header Hsent].
  eexists. eexists. split; [exact H|].
  split; [destruct c; cbn in Hp; try discriminate Hp; reflexivity|].
  split; [exact Hsent|].
  cbn [Nats.msg_Header sd_spanContext].
  match goal with
  | |- context [injected _ ?ctx' header] =>
      pose proof (injected_round_trip (pub_prop p) ctx' header base HP) as R
  end.
  cbn [SpanContextFromContext ContextWithSpanContext ctx_spanContext] in R.
  apply R.
  - apply next_span_context_valid.
  - now apply next_span_context_fits.
Qed.

Lemma published_headers_carry_producer_span_witness :
  let p := Sample.publisher_of Sample.acking_js [] in
  let c := DoPublishMsg p Sample.parent_ctx Sample.nil_header_msg [] in
  exists sd msg,
    opened emptyWorld (snd (run_call c emptyWorld)) sd /\
    sent_message (snd (run_call c emptyWorld)) = Some msg /\
    SpanID (SpanContextFromContext
              (ExtractNATSWithPropagator Background (Nats.msg_Header msg) (pub_prop p)))
      = SpanID (sd_spanContext sd).
Proof.
  intros p c.
  destruct (published_headers_carry_producer_span c p emptyWorld Background
              eq_refl eq_refl TraceContext_keeps_trace_identity eq_refl eq_refl)
    as (sd & msg & Hopen & _ & Hsent & _ & Hspan).
  exists sd, msg. split; [exact Hopen|]. split; [exact Hsent|]. exact Hspan.
Defined.

(** X14. [PublishMsg] changes of the caller's message only the header map:
    subject and data stay, the header map is non-nil afterwards (also when
    the client fails), the client receives that very message, and every
    header key the propagator did not write reads as before. *)
Theorem PublishMsg_changes_only_the_header :
  forall (p : Publisher) (ctx : Context) (msg : Nats.Msg) (opts : list PublishOpt)
         (w : World) (k : string),
    let r := PublishMsg p ctx msg opts w in
    let after := snd (fst r) in
    Nats.msg_Subject after = Nats.msg_Subject msg /\
    Nats.msg_Data after = Nats.msg_Data msg /\
    sent_message (snd r) = Some after /\
    exists h sd,
      Nats.msg_Header after = Some h /\
      opened w (snd r) sd /\
      headerCarrier_Get h k =
        match last_write k
                (Inject (pub_prop p) (ContextWithSpanContext ctx (sd_spanContext sd))) with
        | Some v => v
        | None => headerCarrier_Get (default make_Header (Nats.msg_Header msg)) k
        end.
Proof.
  intros p ctx msg opts w k. cbv zeta. rewrite PublishMsg_run. cbv zeta.
  cbn [fst snd]. unfold sent_message. cbn [js_calls]. rewrite last_append.
  split_and!; [reflexivity..|].
  eexists. eexists. split; [reflexivity|]. split; [reflexivity|].
  cbn [sd_spanContext]. unfold injected, inject_into.
  destruct (last_write k _) as [v|] eqn:Hl.
  - now apply Get_last_write.
  - now rewrite Get_untouched by assumption.
Qed.

Lemma FormatUint_not_empty n : String.eqb (FormatUint n) "" = false.
Proof.
  unfold FormatUint. destruct (N.to_uint n); reflexivity.
Qed.

(** X15. When the client acknowledges a [Publish], the acknowledgment is
    returned as it is, and the span, ended once with unset status and no
    event, carries the message id in decimal from the acknowledged
    sequence number, the subject as destination and the body size of the
    payload when it is not empty. *)
Theorem Publish_acknowledged :
  forall (p : Publisher) (ctx : Context) (subject : string) (data : bytes)
         (opts : list PublishOpt) (w : World) (ack : Nats.PubAck),
    let r := Publish p ctx subject data opts w in
    last_publish_answer p opts (snd r) = Some (Some ack, None) ->
    fst r = (Some ack, None) /\
    exists sd,
      opened w (snd r) sd /\
      sd_status sd = (Unset, "") /\
      sd_events sd = [] /\
      sd_ended sd = 1%nat /\
      Attribute.lookup attrMessagingMessageID (sd_attributes sd)
        = Some (Attribute.StringValue (FormatUint (Nats.Sequence ack))) /\
      Attribute.lookup attrMessagingMessageBodySize (sd_attributes sd)
        = (if 0 <? len data then Some (Attribute.IntValue (len data)) else None) /\
      Attribute.lookup attrMessagingDestinationName (sd_attributes sd)
        = Some (Attribute.StringValue subject).
Proof.
  intros p ctx subject data opts w ack. cbv zeta.
  rewrite Publish_run. cbv zeta. unfold last_publish_answer.
  cbn [fst snd js_calls]. rewrite last_append. intros Hans.
  inversion Hans as [Hans']. rewrite Hans'. cbn [fst snd].
  split; [reflexivity|]. eexists. split; [reflexivity|].
  cbn [sd_status sd_events sd_ended sd_attributes status_after events_after].
  split_and!; try reflexivity;
    unfold publishAttributes, append; rewrite FormatUint_not_empty;
    cbn [String.eqb negb Z.ltb Z.compare];
    destruct (0 <? len data); reflexivity.
Qed.

Lemma Publish_acknowledged_witness :
  let p := Sample.publisher_of Sample.acking_js [] in
  let r := Publish p Sample.parent_ctx "orders.created" Sample.payload [] emptyWorld in
  fst r = (Some (Nats.mkPubAck "ORDERS" 42), None) /\
  exists sd,
    opened emptyWorld (snd r) sd /\
    Attribute.lookup attrMessagingMessageID (sd_attributes sd)
      = Some (Attribute.StringValue "42").
Proof.
  intros p r.
  destruct (Publish_acknowledged p Sample.parent_ctx "orders.created" Sample.payload []
              emptyWorld (Nats.mkPubAck "ORDERS" 42) eq_refl)
    as (Hret & sd & Hopen & _ & _ & _ & Hid & _).
  split; [exact Hret|]. exists sd. split; [exact Hopen|]. exact Hid.
Defined.

(** ** From publisher to handler *)

Lemma IsValid_by_ids sc sc' :
  TraceID sc = TraceID sc' -> SpanID sc = SpanID sc' -> IsValid sc = IsValid sc'.
Proof. unfold IsValid. now intros -> ->. Qed.

Lemma Publish_sends p ctx subject data opts w :
  exists t attrs st ev,
    spans (snd (Publish p ctx subject data opts w)) =
      append (spans w)
        [mkSpanData t (opTypePublish ++ " " ++ subject) SpanKindProducer
           (SpanContextFromContext ctx)
           (next_span_context w (SpanContextFromContext ctx)) attrs st ev 1] /\
    sent_message (snd (Publish p ctx subject data opts w)) =
      Some (Nats.mkMsg subject data
              (Some (injected (pub_prop p)
                       (ContextWithSpanContext ctx
                          (next_span_context w (SpanContextFromContext ctx))) None))).
Proof.
  rewrite Publish_run. cbv zeta. unfold sent_message. cbn [snd spans js_calls].
  rewrite last_append. do 4 eexists. split; reflexivity.
Qed.

(** X16. A message published with [Publish] and delivered to a handler
    wrapped with the same propagator (one that keeps trace identity) gives
    one connected trace, whatever the callback does: the process span that
    the wrapped handler starts, and runs the callback with, has the
    producer span as its parent and the producer's trace id, and that is
    the caller's trace id when the caller's context held a valid span. *)
Theorem publish_then_process_one_trace :
  forall (p : Publisher) (g : Globals) (handler : Handler) (tp : option TracerProvider)
         (hopts : list Option) (ctx : Context) (subject : string) (data : bytes)
         (opts : list PublishOpt) (w w2 : World)
         (md : option Nats.MsgMetadata * option error),
    keeps_trace_identity (pub_prop p) ->
    fits (SpanContextFromContext ctx) = true ->
    has_room w ->
    exists sent wrapped producer process spanCtx,
      sent_message (snd (Publish p ctx subject data opts w)) = Some sent /\
      MessageHandlerWithTracingProviders g (Some handler) tp (Some (pub_prop p)) hopts
        = Ret wrapped /\
      opened w (snd (Publish p ctx subject data opts w)) producer /\
      runs_callback_in handler wrapped (delivered sent md) w2 process spanCtx /\
      only_span_when_untouched handler wrapped (delivered sent md) w2 process spanCtx /\
      sd_kind producer = SpanKindProducer /\
      sd_kind process = SpanKindConsumer /\
      sd_parent producer = SpanContextFromContext ctx /\
      TraceID (sd_parent process) = TraceID (sd_spanContext producer) /\
      SpanID (sd_parent process) = SpanID (sd_spanContext producer) /\
      TraceID (sd_spanContext process) = TraceID (sd_spanContext producer) /\
      (IsValid (SpanContextFromContext ctx) = true ->
       TraceID (sd_spanContext process) = TraceID (SpanContextFromContext ctx)).
Proof.
  intros p g handler tp hopts ctx subject data opts w w2 md HP Hfits Hroom.
  destruct (Publish_sends p ctx subject data opts w)
    as (t & attrs & st & ev & Hopen & Hsent).
  destruct (handler_span g handler tp (Some (pub_prop p)) hopts)
    as (wrapped & Hw & Hspan).
  set (sc := next_span_context w (SpanContextFromContext ctx)) in *.
  set (sent := Nats.mkMsg subject data
                 (Some (injected (pub_prop p) (ContextWithSpanContext ctx sc) None))) in *.
  destruct (Hspan (delivered sent md) w2)
    as (process & spanCtx & Hrun & _ & Hk2 & _ & _ & Hparent & Hsc).
  cbn [getPropagator prop WithPropagator delivered Nats.Headers sent Nats.msg_Header]
    in Hparent.
  assert (Hvalid : IsValid sc = true) by apply next_span_context_valid.
  assert (Hfit : fits sc = true) by now apply next_span_context_fits.
  destruct (injected_round_trip (pub_prop p) (ContextWithSpanContext ctx sc) None
              Background HP Hvalid Hfit) as [Ht Hs].
  rewrite <- Hparent in Ht, Hs.
  cbn [SpanContextFromContext ContextWithSpanContext ctx_spanContext] in Ht, Hs.
  assert (Hv : IsValid (sd_parent process) = true)
    by (rewrite (IsValid_by_ids _ sc Ht Hs); exact Hvalid).
  assert (Htrace : TraceID (sd_spanContext process) = TraceID sc)
    by (rewrite Hsc, Hv; exact Ht).
  exists sent. exists wrapped. eexists. exists process, spanCtx.
  split; [exact Hsent|]. split; [exact Hw|]. split; [exact Hopen|].
  split; [exact Hrun|]. split; [now apply untouched_span|].
  cbn [sd_kind sd_parent sd_spanContext].
  split_and!; try reflexivity; try assumption.
  intros Hctx. rewrite Htrace. unfold sc, next_span_context. cbn [TraceID].
  now rewrite Hctx.
Qed.

Lemma publish_then_process_one_trace_witness :
  let p := Sample.publisher_of Sample.acking_js [] in
  exists sent wrapped producer process spanCtx,
    sent_message (snd (Publish p Sample.parent_ctx "orders.created" Sample.payload []
                         emptyWorld)) = Some sent /\
    MessageHandlerWithTracingProviders Sample.globals (Some Sample.recording) None
      (Some (pub_prop p)) [] = Ret wrapped /\
    opened emptyWorld
      (snd (Publish p Sample.parent_ctx "orders.created" Sample.payload [] emptyWorld))
      producer /\
    runs_callback_in Sample.recording wrapped (delivered sent (None, None))
      Sample.busy_world process spanCtx /\
    SpanID (sd_parent process) = SpanID (sd_spanContext producer) /\
    TraceID (sd_spanContext process) = TraceID Sample.parent.
Proof.
  intros p.
  destruct (publish_then_process_one_trace p Sample.globals Sample.recording None []
              Sample.parent_ctx "orders.created" Sample.payload [] emptyWorld
              Sample.busy_world (None, None)
              TraceContext_keeps_trace_identity eq_refl eq_refl)
    as (sent & wrapped & producer & process & spanCtx & Hsent & Hw & Ho & Ho2 & _ & _ & _ & _
        & _ & Hspan & _ & Htrace).
  exists sent, wrapped, producer, process, spanCtx.
  split; [exact Hsent|]. split; [exact Hw|]. split; [exact Ho|]. split; [exact Ho2|].
  split; [exact Hspan|]. exact (Htrace eq_refl).
Defined.

(** ** The handler wrapper and the standalone process span *)

(** X17. For options that set no propagator, and whatever the callback does
    to the world: the wrapped handler returns or panics as the manual
    pattern does ([NewTracedMsg], [StartProcessSpan], [defer endSpan(nil)],
    then the callback's code run with the returned context), and when the
    callback returns both leave the same world: the same span, with the
    same name, attributes, parent, tracer, status and events, ended as
    often. *)
Theorem handler_is_StartProcessSpan :
  forall (g : Globals) (handler : Handler) (opts : list Option) (msg : Nats.JMsg)
         (w : World),
    prop (applyOptions opts) = None ->
    exists wrapped,
      MessageHandlerWithTracing g (Some handler) opts = Ret wrapped /\
      fst (wrapped msg w) = fst (standalone_processing g handler opts msg w) /\
      (returns (fst (standalone_processing g handler opts msg w)) = true ->
       wrapped msg w = standalone_processing g handler opts msg w).
Proof.
  intros g handler opts msg w Hprop.
  eexists. split; [reflexivity|]. cbn beta.
  unfold standalone_processing, StartProcessSpan, StartProcessSpanWithTracer, NewTracedMsg,
    NewTracedMsgWithPropagator, TracedMsg_Context, endFunc, getPropagator, recover_and_end,
    defer.
  rewrite Hprop. cbn [tm_Msg tm_ctx]. unfold Start, bind, ret. cbn [fst snd].
  destruct (Nats.Metadata msg) as [[md|] [e|]];
    destruct (Nats.Headers msg); cbn [fst snd];
    match goal with
    | |- context [handler ?tm ?w1] => destruct (handler tm w1) as [[[]|v] w2]
    end; cbn [fst snd returns]; (split; [reflexivity|]);
    intros Hret; try discriminate; reflexivity.
Qed.

Lemma handler_is_StartProcessSpan_witness :
  exists wrapped,
    MessageHandlerWithTracing Sample.globals (Some Sample.recording) [WithStream "ORDERS"]
      = Ret wrapped /\
    wrapped Sample.m1 Sample.busy_world =
      standalone_processing Sample.globals Sample.recording [WithStream "ORDERS"]
        Sample.m1 Sample.busy_world.
Proof.
  destruct (handler_is_StartProcessSpan Sample.globals Sample.recording
              [WithStream "ORDERS"] Sample.m1 Sample.busy_world eq_refl)
    as (wrapped & Hw & _ & Hsame).
  exists wrapped. split; [exact Hw|]. exact (Hsame eq_refl).
Defined.

(** When the callback panics the two differ: the wrapped handler records the
    panic on the span, the manual pattern only ends it. *)
Example handler_records_panic_standalone_does_not :
  let wrapped := Sample.wrapped_of Sample.panicking [WithStream "ORDERS"] in
  let standalone :=
    standalone_processing Sample.globals Sample.panicking [WithStream "ORDERS"] in
  fst (wrapped Sample.m2 emptyWorld) = fst (standalone Sample.m2 emptyWorld) /\
  map (fun sd => (sd_status sd, sd_ended sd)) (spans (snd (wrapped Sample.m2 emptyWorld)))
    = [((Trace.Error, "panic in handler"), 1%nat)] /\
  map (fun sd => (sd_status sd, sd_ended sd)) (spans (snd (standalone Sample.m2 emptyWorld)))
    = [((Unset, ""), 1%nat)].
Proof. split_and!; vm_compute; reflexivity. Qed.

(** X18. The process span of a wrapped handler, as the handler starts it and
    whatever the callback then does, is named [process <stream>] where the
    stream is the one set by option if that is not empty, else the stream
    of the message's metadata if the metadata came without error, else
    empty; its attributes are the process attributes for that stream, the
    metadata's consumer, the subject and the payload size, with never a
    message id; and it is a root span when the message has no header map,
    otherwise a child of whatever the propagator extracts. *)
Theorem handler_span_naming :
  forall (g : Globals) (handler : Handler) (tp : option TracerProvider)
         (opts : list Option),
  exists wrapped,
    MessageHandlerWithTracingProviders g (Some handler) tp None opts = Ret wrapped /\
    forall (msg : Nats.JMsg) (w : World), exists sd spanCtx,
      runs_callback_in handler wrapped msg w sd spanCtx /\
      only_span_when_untouched handler wrapped msg w sd spanCtx /\
      let streamName :=
        if String.eqb (stream (applyOptions opts)) "" then metadata_stream msg
        else stream (applyOptions opts) in
      sd_name sd = "process " ++ streamName /\
      sd_attributes sd =
        processAttributes streamName (metadata_consumer msg) (Nats.Subject msg) ""
          (len (Nats.Data msg)) /\
      Attribute.has_key attrMessagingMessageID (sd_attributes sd) = false /\
      sd_parent sd =
        match Nats.Headers msg with
        | None => emptySpanContext
        | Some headers =>
            SpanContextFromContext
              (Extract (getPropagator g (applyOptions opts)) Background
                 (headerCarrier_Get headers))
        end.
Proof.
  intros g handler tp opts.
  destruct (handler_span g handler tp None opts) as (wrapped & Hw & Hspan).
  exists wrapped. split; [exact Hw|].
  intros msg w.
  destruct (Hspan msg w) as (sd & spanCtx & Hrun & _ & _ & Hname & Hattrs & Hparent & _).
  exists sd, spanCtx. split; [exact Hrun|]. split; [now apply untouched_span|].
  cbv zeta in *.
  split; [exact Hname|]. split; [exact Hattrs|]. split.
  - rewrite Hattrs. unfold processAttributes, append.
    destruct (String.eqb (Nats.Subject msg) ""), (String.eqb (metadata_consumer msg) ""),
      (0 <? len (Nats.Data msg)); reflexivity.
  - rewrite Hparent. now destruct (Nats.Headers msg).
Qed.

(** ** What fetched messages carry *)

(** X19. A successful [Fetch], [FetchBytes] or [FetchNoWait] returns a batch
    that is never nil, wraps exactly what the client returned, has no
    channel yet, and whose context holds the receive span, already ended:
    a nil message and a message without header map are wrapped with that
    context, and so with a valid span context. *)
Theorem fetched_batch_context :
  forall (tc : TracedConsumer) (n : Z) (opts : list FetchOpt) (w : World)
         (run : M (option TracedMessageBatch * option error))
         (ans : option MessageBatch * option error),
    In (run, ans)
       [ (Fetch tc n opts, c_Fetch (tc_consumer tc) n opts);
         (FetchBytes tc n opts, c_FetchBytes (tc_consumer tc) n opts);
         (FetchNoWait tc n, c_FetchNoWait (tc_consumer tc) n) ] ->
    snd ans = None ->
    exists b sd,
      fst (run w) = (Some b, None) /\
      opened w (snd (run w)) sd /\
      sd_ended sd = 1%nat /\
      tmb_batch b = fst ans /\
      tmb_msgChan b = None /\
      SpanContextFromContext (tmb_ctx b) = sd_spanContext sd /\
      IsValid (SpanContextFromContext (tmb_ctx b)) = true /\
      TracedMsg_Context (rewrap b None) = tmb_ctx b /\
      (forall subject data md,
          TracedMsg_Context (rewrap b (Some (Nats.mkJMsg subject data None md)))
            = tmb_ctx b).
Proof.
  intros tc n opts w run ans Hin Hok.
  assert (Hrun : run w =
            ((Some (wrapBatch tc
                      (ContextWithSpanContext Background
                         (next_span_context w emptySpanContext)) (fst ans)), None),
             with_spans w (append (spans w) [receive_span tc w None]))).
  { destruct Hin as [Heq|[Heq|[Heq|[]]]]; inversion Heq; subst.
    - rewrite Fetch_run. cbv zeta. now rewrite Hok.
    - rewrite FetchBytes_run. cbv zeta. now rewrite Hok.
    - rewrite FetchNoWait_run. cbv zeta. now rewrite Hok. }
  rewrite Hrun. eexists. eexists. split; [reflexivity|]. split; [reflexivity|].
  split_and!; try reflexivity. apply next_span_context_valid.
Qed.

Lemma fetched_batch_context_witness :
  let tc := Sample.traced_consumer_of Sample.consumer in
  exists b sd,
    fst (Fetch tc 10 [] emptyWorld) = (Some b, None) /\
    opened emptyWorld (snd (Fetch tc 10 [] emptyWorld)) sd /\
    tmb_batch b = Some Sample.batch /\
    SpanContextFromContext (TracedMsg_Context (rewrap b (Some Sample.m2)))
      = sd_spanContext sd.
Proof.
  intros tc.
  destruct (fetched_batch_context tc 10 [] emptyWorld (Fetch tc 10 [])
              (c_Fetch (tc_consumer tc) 10 []) (or_introl eq_refl) eq_refl)
    as (b & sd & Hret & Hopen & _ & Hbatch & _ & Hctx & _ & _ & Hnone).
  exists b, sd. split; [exact Hret|]. split; [exact Hopen|]. split; [exact Hbatch|].
  unfold Sample.m2, Sample.inbound. rewrite Hnone. exact Hctx.
Defined.

(** X20. A successful consumer-level [Next] returns the client's message
    wrapped with the context extracted over the background context, after
    one receive span ended once; for a nil message or one without header
    map that context is the background context itself, so, unlike a
    message of a fetched batch, it holds no span at all. *)
Theorem next_message_context :
  forall (tc : TracedConsumer) (opts : list FetchOpt) (w : World)
         (msg : option Nats.JMsg),
    c_Next (tc_consumer tc) opts = (msg, None) ->
    exists tm sd,
      fst (Next tc opts w) = (Some tm, None) /\
      opened w (snd (Next tc opts w)) sd /\
      sd_ended sd = 1%nat /\
      tm_Msg tm = msg /\
      TracedMsg_Context tm = extractContext tc Background msg /\
      (match msg with
       | None => True
       | Some m => Nats.Headers m = None
       end -> TracedMsg_Context tm = Background).
Proof.
  intros tc opts w msg Hans. rewrite Next_run. cbv zeta. rewrite Hans. cbn [fst snd].
  eexists. eexists. split; [reflexivity|]. split; [reflexivity|].
  split_and!; try reflexivity.
  intros Hnone. cbn. destruct msg as [m|]; [|reflexivity].
  cbn. now rewrite Hnone.
Qed.

Lemma next_message_context_witness :
  let tc := Sample.traced_consumer_of
              (mkConsumer None (fun _ _ => (None, None)) (fun _ _ => (None, None))
                 (fun _ => (None, None)) (fun _ => (Some Sample.m2, None))
                 (fun _ => (None, None))) in
  exists tm sd,
    fst (Next tc [] emptyWorld) = (Some tm, None) /\
    opened emptyWorld (snd (Next tc [] emptyWorld)) sd /\
    tm_Msg tm = Some Sample.m2 /\
    TracedMsg_Context tm = Background.
Proof.
  intros tc.
  destruct (next_message_context tc [] emptyWorld (Some Sample.m2) eq_refl)
    as (tm & sd & Hret & Hopen & _ & Hmsg & _ & Hnone).
  exists tm, sd. split; [exact Hret|]. split; [exact Hopen|]. split; [exact Hmsg|].
  exact (Hnone eq_refl).
Defined.

(** X21. Continuous consumption never touches the world: [Messages] returns
    the client's error as it is, with an iterator exactly when there is no
    error, and [Next] on the iterator returns the error of the underlying
    [Next] as it is, with a message exactly when there is none, moving the
    underlying iterator on and keeping its context and extraction; only a
    nil underlying iterator makes it panic. *)
Theorem continuous_path_is_transparent :
  forall (tc : TracedConsumer) (opts : list PullMessagesOpt) (c : TracedMessagesContext)
         (w : World),
    snd (Messages tc opts w) = w /\
    snd (fst (Messages tc opts w)) = snd (c_Messages (tc_consumer tc) opts) /\
    is_nil (fst (fst (Messages tc opts w)))
      = negb (is_nil (snd (c_Messages (tc_consumer tc) opts))) /\
    snd (TracedMessagesContext_Next c w) = w /\
    match tmc_messagesCtx c, fst (TracedMessagesContext_Next c w) with
    | Some mc, Ret ((tm, err), c') =>
        err = snd (fst (mc_Next mc)) /\
        is_nil tm = negb (is_nil err) /\
        tmc_messagesCtx c' = Some (snd (mc_Next mc)) /\
        tmc_ctx c' = tmc_ctx c /\ tmc_extractCtx c' = tmc_extractCtx c
    | None, Panic _ => True
    | _, _ => False
    end.
Proof.
  intros tc opts c w. unfold Messages, TracedMessagesContext_Next.
  destruct (c_Messages _ _) as [mc [e|]];
    destruct (tmc_messagesCtx c) as [messagesCtx|];
    try destruct (mc_Next messagesCtx) as [[msg [e'|]] mc'];
    cbn; split_and!; reflexivity.
Qed.

(** ** Construction *)

(** X22. The publisher and the consumer wrapper resolve their collaborators
    alike from the same arguments: the propagator is the explicit argument
    if given, else the one set by option, else the registered one; the
    tracer is, under a tracer name other than the default, that of the
    explicit provider (else of the registered one) with that name, and
    under the default name the tracer set process-wide if there is one,
    whatever provider was passed. *)
Theorem constructors_resolve_alike :
  forall (g : Globals) (js : JetStream) (c : Consumer) (stream : string)
         (tp : option TracerProvider) (given : option TextMapPropagator)
         (opts : list Option),
    exists p tc,
      NewPublisherWithProviders g (Some js) tp given opts = Ret p /\
      WrapConsumerWithProviders g (Some c) stream tp given opts = Ret tc /\
      pub_js p = js /\ tc_consumer tc = c /\ tc_stream tc = stream /\
      pub_tracer p = tc_tracer tc /\ pub_prop p = tc_prop tc /\ pub_opts p = tc_opts tc /\
      pub_prop p =
        setting_or (setting_or (otel_TextMapPropagator g) (prop (applyOptions opts)))
          given /\
      asyncSpans (pub_opts p) = asyncSpans (applyOptions opts) /\
      pub_tracer p =
        (let provider := setting_or (otel_TracerProvider g) tp in
         let name := tracerName (applyOptions opts) in
         if String.eqb name instrumentationName
         then setting_or (tp_Tracer provider name) (tracker_Tracer g)
         else tp_Tracer provider name).
Proof.
  intros g js c stream tp given opts.
  eexists. eexists. split; [reflexivity|]. split; [reflexivity|].
  cbn [pub_js tc_consumer tc_stream pub_tracer tc_tracer pub_prop tc_prop pub_opts tc_opts].
  split_and!; try reflexivity.
  - unfold getPropagator. destruct given as [P|]; [reflexivity|].
    cbn. now destruct (prop (applyOptions opts)).
  - now destruct given.
  - unfold getTracer. destruct given as [P|]; cbn [WithPropagator tracerName];
      destruct (String.eqb _ instrumentationName); cbn [negb];
      destruct tp, (tracker_Tracer g); reflexivity.
Qed.
